(** * civitai-models-cli: the interactive image-generation flow

    A shallow embedding of [civitai_models_manager/modules/create.py].

    The module is glue code: it asks the operator for generation parameters,
    looks metadata up, submits one request to the remote generation service
    and reports on the resulting job.  Everything it does is an interaction
    with something outside of it, so the embedding is a tree of interactions
    (a free monad over the module's effects) whose leaves carry Python's
    three ways of leaving a block: falling through, [return], and a raised
    exception.  Python values are dynamically typed, and several paths of
    the module depend on that (truthiness, [.get] on whatever a lookup
    returned, a call with the wrong number of arguments), so values are
    embedded as one inductive type with the dynamic checks written out. *)

From Stdlib Require Import ZArith List String Ascii Bool Lia.
From Stdlib Require Import Floats.PrimFloat Floats.SpecFloat Floats.FloatOps.
From Stdlib Require Import Numbers.Cyclic.Int63.Uint63.
Import ListNotations.

Set Warnings "-register-all".

Local Open Scope string_scope.
Local Open Scope list_scope.
Local Open Scope Z_scope.

(** ** Python values *)

(** The values the module handles: what the JSON-speaking collaborators
    return and what the module builds for them.  A [str] is kept as its
    UTF-8 bytes; a [dict] is an association list in insertion order. *)
Inductive pyval : Type :=
| PNone
| PBool (b : bool)
| PInt (n : Z)
| PFloat (x : float)
| PStr (s : string)
| PList (items : list pyval)
| PDict (entries : list (pyval * pyval)).

(** Exceptions, as far as [except Exception] sees them: instances of
    [Exception], by class.  [exn_note] names the failing operation or
    carries the collaborator's message; CPython's message texts are not
    modelled. *)
Inductive exn_class : Type :=
| ValueError
| TypeError
| AttributeError
| KeyError
| IndexError
| OtherError (name : string).

Record exn : Type := Exn { class_of : exn_class; exn_note : string }.

(** The result of evaluating an expression, or of a call into a
    collaborator: a value or a raised exception. *)
Inductive outcome (A : Type) : Type :=
| Value (a : A)
| Raises (e : exn).
Arguments Value {A} a.
Arguments Raises {A} e.

Definition is_ValueError (e : exn) : bool :=
  match class_of e with ValueError => true | _ => false end.

Definition outcome_bind {A B} (o : outcome A) (f : A -> outcome B) : outcome B :=
  match o with
  | Value a => f a
  | Raises e => Raises e
  end.

(** *** Truthiness, [bool(v)] *)

Definition truthy (v : pyval) : bool :=
  match v with
  | PNone => false
  | PBool b => b
  | PInt n => negb (n =? 0)
  | PFloat x => negb (PrimFloat.eqb x 0%float)
  | PStr s => negb (String.eqb s "")
  | PList items => match items with [] => false | _ => true end
  | PDict entries => match entries with [] => false | _ => true end
  end.

(** *** Equality of hashable values, as a [dict] compares its keys

    [True == 1 == 1.0]: numbers compare by value across [bool], [int] and
    [float]; an [int] equals a [float] only when the float is exactly that
    integer. *)

Definition float_eq_Z (x : float) (n : Z) : bool :=
  match Prim2SF x with
  | S754_zero _ => n =? 0
  | S754_finite s m e =>
      let v := if s then Z.neg m else Z.pos m in
      if 0 <=? e then n =? v * 2 ^ e
      else (v mod 2 ^ (- e) =? 0) && (n =? v / 2 ^ (- e))
  | _ => false
  end.

Definition as_int (v : pyval) : option Z :=
  match v with
  | PBool b => Some (Z.b2z b)
  | PInt n => Some n
  | _ => None
  end.

Definition key_eqb (a b : pyval) : bool :=
  match a, b with
  | PNone, PNone => true
  | PStr s, PStr t => String.eqb s t
  | PFloat x, PFloat y => PrimFloat.eqb x y
  | PFloat x, _ => match as_int b with Some n => float_eq_Z x n | None => false end
  | _, PFloat y => match as_int a with Some n => float_eq_Z y n | None => false end
  | _, _ => match as_int a, as_int b with
            | Some m, Some n => m =? n
            | _, _ => false
            end
  end.

Definition hashable (v : pyval) : bool :=
  match v with
  | PList _ | PDict _ => false
  | _ => true
  end.

(** *** Strings *)

(** The code points of a UTF-8 string, each as its own string: a byte
    [10xxxxxx] continues the code point before it. *)
Definition is_continuation (c : ascii) : bool :=
  let n := nat_of_ascii c in (128 <=? n)%nat && (n <? 192)%nat.

Definition continues (s : string) : bool :=
  match s with
  | String d _ => is_continuation d
  | EmptyString => false
  end.

Fixpoint code_points (s : string) : list string :=
  match s with
  | EmptyString => []
  | String c rest =>
      match code_points rest with
      | hd :: tl =>
          if continues rest then String c hd :: tl
          else String c EmptyString :: hd :: tl
      | [] => [String c EmptyString]
      end
  end.

Fixpoint is_substring (needle s : string) : bool :=
  String.prefix needle s ||
  match s with
  | EmptyString => false
  | String _ rest => is_substring needle rest
  end.

(** [s.split(sep)] for a one-character separator. *)
Fixpoint split_on (sep : ascii) (s : string) : list string :=
  match s with
  | EmptyString => [EmptyString]
  | String c rest =>
      if Ascii.eqb c sep then EmptyString :: split_on sep rest
      else match split_on sep rest with
           | hd :: tl => String c hd :: tl
           | [] => [String c EmptyString]
           end
  end.

(** *** Containers *)

Fixpoint dict_find (entries : list (pyval * pyval)) (key : pyval) : option pyval :=
  match entries with
  | [] => None
  | (k, v) :: rest => if key_eqb k key then Some v else dict_find rest key
  end.

(** [d[key] = v] on the entries of a dict: an equal key keeps its place. *)
Fixpoint dict_store (entries : list (pyval * pyval)) (key v : pyval)
  : list (pyval * pyval) :=
  match entries with
  | [] => [(key, v)]
  | (k, w) :: rest =>
      if key_eqb k key then (k, v) :: rest
      else (k, w) :: dict_store rest key v
  end.

(** Indexing a sequence of length [length l] with a Python index. *)
Definition seq_index {A} (l : list A) (i : Z) : option A :=
  let n := Z.of_nat (List.length l) in
  let j := if i <? 0 then i + n else i in
  if (0 <=? j) && (j <? n) then nth_error l (Z.to_nat j) else None.

(** [x[key]] *)
Definition py_getitem (x key : pyval) : outcome pyval :=
  match x with
  | PDict entries =>
      if hashable key then
        match dict_find entries key with
        | Some v => Value v
        | None => Raises (Exn KeyError "dict key")
        end
      else Raises (Exn TypeError "unhashable type")
  | PList items =>
      match as_int key with
      | Some i =>
          match seq_index items i with
          | Some v => Value v
          | None => Raises (Exn IndexError "list index out of range")
          end
      | None => Raises (Exn TypeError "list indices must be integers")
      end
  | PStr s =>
      match as_int key with
      | Some i =>
          match seq_index (code_points s) i with
          | Some c => Value (PStr c)
          | None => Raises (Exn IndexError "string index out of range")
          end
      | None => Raises (Exn TypeError "string indices must be integers")
      end
  | _ => Raises (Exn TypeError "object is not subscriptable")
  end.

(** [x[key] = v], returning the updated container. *)
Definition py_setitem (x key v : pyval) : outcome pyval :=
  match x with
  | PDict entries =>
      if hashable key then Value (PDict (dict_store entries key v))
      else Raises (Exn TypeError "unhashable type")
  | PList items =>
      match as_int key with
      | Some i =>
          let n := Z.of_nat (List.length items) in
          let j := if i <? 0 then i + n else i in
          if (0 <=? j) && (j <? n)
          then Value (PList (firstn (Z.to_nat j) items ++ v :: skipn (S (Z.to_nat j)) items))
          else Raises (Exn IndexError "list assignment index out of range")
      | None => Raises (Exn TypeError "list indices must be integers")
      end
  | _ => Raises (Exn TypeError "object does not support item assignment")
  end.

(** [x.get(key)] for a string key: only a dict has the method. *)
Definition py_get (x : pyval) (key : string) : outcome pyval :=
  match x with
  | PDict entries =>
      match dict_find entries (PStr key) with
      | Some v => Value v
      | None => Value PNone
      end
  | _ => Raises (Exn AttributeError "get")
  end.

(** [len(x)] *)
Definition py_len (x : pyval) : outcome Z :=
  match x with
  | PList items => Value (Z.of_nat (List.length items))
  | PDict entries => Value (Z.of_nat (List.length entries))
  | PStr s => Value (Z.of_nat (List.length (code_points s)))
  | _ => Raises (Exn TypeError "object has no len()")
  end.

(** The elements [for v in x] visits. *)
Definition py_iter (x : pyval) : outcome (list pyval) :=
  match x with
  | PList items => Value items
  | PDict entries => Value (map fst entries)
  | PStr s => Value (map PStr (code_points s))
  | _ => Raises (Exn TypeError "object is not iterable")
  end.

(** [v == s] for a string literal [s]. *)
Definition str_eq (v : pyval) (s : string) : bool := key_eqb v (PStr s).

(** [needle in x] for a string literal [needle]. *)
Definition py_contains (x : pyval) (needle : string) : outcome bool :=
  match x with
  | PDict entries => Value (existsb (fun kv => str_eq (fst kv) needle) entries)
  | PList items => Value (existsb (fun v => str_eq v needle) items)
  | PStr s => Value (is_substring needle s)
  | _ => Raises (Exn TypeError "argument is not iterable")
  end.

(** ** Interactions *)

(** A formatted message: the literal parts of an f-string and the values
    it interpolates, kept apart ([FmtExn e] stands for [str(e)]). *)
Inductive piece : Type :=
| Lit (s : string)
| Fmt (v : pyval)
| FmtExn (e : exn).

Definition text : Type := list piece.

(** What the module writes to the console. *)
Inductive output : Type :=
| Feedback (msg : text) (severity : string)
| ConsolePrint (line style : string)
| PrintJson (data : pyval).

(** A choice offered by [questionary.select]. *)
Record choice : Type := Choice { choice_name : text; choice_value : pyval }.

(** What the module asks of its collaborators: the metadata lookup
    ([details.py]), the operator ([questionary.select]) and the remote
    client ([civitai]). *)
Inductive request : Type :=
| GetModelDetails (models versions id : pyval)
| ProcessModelData (model : pyval)
| SelectAsk (message : string) (choices : list choice)
| ImageCreate (input : pyval)
| JobsGet (id : pyval)
| JobsQuery (detailed query_jobs_request : pyval)
| JobsCancel (job_id : pyval).

(** The calls that go over the network: the metadata fetch and every call
    of the remote client. *)
Definition is_network_call (c : request) : bool :=
  match c with
  | GetModelDetails _ _ _ => true
  | ProcessModelData _ => false
  | SelectAsk _ _ => false
  | ImageCreate _ | JobsGet _ | JobsQuery _ _ | JobsCancel _ => true
  end.

(** The calls of the remote generation client. *)
Definition is_remote_call (c : request) : bool :=
  match c with
  | ImageCreate _ | JobsGet _ | JobsQuery _ _ | JobsCancel _ => true
  | _ => false
  end.

(** A program: a tree of interactions.  [Prompt] is [questionary.text]:
    the operator answers with a string, or with [None] when they cancel. *)
Inductive prog (A : Type) : Type :=
| Ret (a : A)
| Tell (o : output) (k : prog A)
| Prompt (message : string) (default : option string)
         (k : outcome (option string) -> prog A)
| Call (c : request) (k : outcome pyval -> prog A).
Arguments Ret {A} a.
Arguments Tell {A} o k.
Arguments Prompt {A} message default k.
Arguments Call {A} c k.

Fixpoint prog_bind {A B} (m : prog A) (f : A -> prog B) : prog B :=
  match m with
  | Ret a => f a
  | Tell o k => Tell o (prog_bind k f)
  | Prompt message default k => Prompt message default (fun r => prog_bind (k r) f)
  | Call c k => Call c (fun r => prog_bind (k r) f)
  end.

(** How a block of statements ends. *)
Inductive completion (A : Type) : Type :=
| Normal (a : A)
| Return (v : pyval)
| Raise (e : exn).
Arguments Normal {A} a.
Arguments Return {A} v.
Arguments Raise {A} e.

Definition M (A : Type) : Type := prog (completion A).

Definition ret {A} (a : A) : M A := Ret (Normal a).

Definition bind {A B} (m : M A) (f : A -> M B) : M B :=
  prog_bind m (fun c =>
    match c with
    | Normal a => f a
    | Return v => Ret (Return v)
    | Raise e => Ret (Raise e)
    end).

Declare Scope py_scope.
Delimit Scope py_scope with py.
Notation "x <- m ;; k" := (bind m (fun x => k))
  (at level 61, m at next level, right associativity) : py_scope.
Notation "m ;; k" := (bind m (fun _ => k))
  (at level 61, right associativity) : py_scope.
Local Open Scope py_scope.

Definition return_ {A} (v : pyval) : M A := Ret (Return v).
Definition raise {A} (e : exn) : M A := Ret (Raise e).

Definition lift {A} (o : outcome A) : M A :=
  match o with
  | Value a => Ret (Normal a)
  | Raises e => Ret (Raise e)
  end.

Definition call (c : request) : M pyval := Call c (fun r => lift r).

Definition feedback_message (msg : text) (severity : string) : M unit :=
  Tell (Feedback msg severity) (ret tt).
Definition console_print (line style : string) : M unit :=
  Tell (ConsolePrint line style) (ret tt).
Definition print_json (data : pyval) : M unit :=
  Tell (PrintJson data) (ret tt).

(** [prompt(message, default=...).ask()] *)
Definition prompt_ask (message : string) (default : option string)
  : M (option string) :=
  Prompt message default (fun r => lift r).

(** [select(message, choices=...).ask()] *)
Definition select_ask (message : string) (choices : list choice) : M pyval :=
  call (SelectAsk message choices).

(** [try: body except <class>: handler], for the classes [catches]. *)
Definition try_except {A} (catches : exn -> bool) (body : M A)
                      (handler : exn -> M A) : M A :=
  prog_bind body (fun c =>
    match c with
    | Raise e => if catches e then handler e else Ret (Raise e)
    | _ => Ret c
    end).

Definition Exception (e : exn) : bool := true.

(** [a and b] in a condition. *)
Definition and_then (a b : M bool) : M bool :=
  x <- a ;; if x then b else ret false.

(** [for x in items: s = body s x] *)
Fixpoint for_each {S} (items : list pyval) (body : S -> pyval -> M S) (s : S)
  : M S :=
  match items with
  | [] => ret s
  | x :: rest => s' <- body s x ;; for_each rest body s'
  end.

(** A function body seen from its caller: falling off the end returns
    [None]. *)
Definition def (body : M unit) : prog (outcome pyval) :=
  prog_bind body (fun c =>
    match c with
    | Normal _ => Ret (Value PNone)
    | Return v => Ret (Value v)
    | Raise e => Ret (Raises e)
    end).

(** A call of a function of this module. *)
Definition invoke (f : prog (outcome pyval)) : M pyval :=
  prog_bind f (fun r => lift r).

(** Binding positional arguments to three required parameters. *)
Definition call_positional_3
    (f : pyval -> pyval -> pyval -> prog (outcome pyval)) (args : list pyval)
  : prog (outcome pyval) :=
  match args with
  | [a; b; c] => f a b c
  | _ => Ret (Raises (Exn TypeError "positional arguments"))
  end.

(** ** Runs *)

(** One interaction of a run, with the collaborator's answer. *)
Inductive event : Type :=
| Said (o : output)
| Asked (message : string) (default : option string)
        (answer : outcome (option string))
| Called (c : request) (r : outcome pyval).

(** [runs p t a]: the program [p] can perform the interactions [t], in
    that order, and end with [a].  The collaborators may answer anything. *)
Inductive runs {A} : prog A -> list event -> A -> Prop :=
| runs_Ret a : runs (Ret a) [] a
| runs_Tell o k t a : runs k t a -> runs (Tell o k) (Said o :: t) a
| runs_Prompt message default k r t a :
    runs (k r) t a -> runs (Prompt message default k) (Asked message default r :: t) a
| runs_Call c k r t a :
    runs (k r) t a -> runs (Call c k) (Called c r :: t) a.

(** The collaborators' answers, in the order they are asked for. *)
Inductive reply : Type :=
| Answer (r : outcome (option string))
| Result (r : outcome pyval).

(** Running a program against a script of answers.  A missing answer (or
    one of the wrong kind) is read as [None]. *)
Fixpoint exec {A} (p : prog A) (script : list reply) : list event * A :=
  match p with
  | Ret a => ([], a)
  | Tell o k => let (t, a) := exec k script in (Said o :: t, a)
  | Prompt message default k =>
      let r := match script with Answer r :: _ => r | _ => Value None end in
      let (t, a) := exec (k r) (tl script) in
      (Asked message default r :: t, a)
  | Call c k =>
      let r := match script with Result r :: _ => r | _ => Value PNone end in
      let (t, a) := exec (k r) (tl script) in
      (Called c r :: t, a)
  end.

Definition trace_of {A} (p : prog A) (script : list reply) : list event :=
  fst (exec p script).

(** The requests of a trace, and some views of them. *)
Definition calls (t : list event) : list request :=
  flat_map (fun ev => match ev with Called c _ => [c] | _ => [] end) t.

Definition outputs (t : list event) : list output :=
  flat_map (fun ev => match ev with Said o => [o] | _ => [] end) t.

Definition network_calls (t : list event) : list request :=
  filter is_network_call (calls t).

Definition remote_calls (t : list event) : list request :=
  filter is_remote_call (calls t).

(** The request bodies submitted to the generation endpoint. *)
Definition submitted (t : list event) : list pyval :=
  flat_map (fun c => match c with ImageCreate input => [input] | _ => [] end)
           (calls t).

(** The metadata lookups performed. *)
Definition lookups (t : list event) : list request :=
  filter (fun c => match c with GetModelDetails _ _ _ => true | _ => false end)
         (calls t).

(** ** The module *)

Definition SCHEDULERS : list string :=
  [ "EulerA"; "Euler"; "LMS"; "Heun"; "DPM2"; "DPM2A"; "DPM2SA"; "DPM2M";
    "DPMSDE"; "DPMFast"; "DPMAdaptive"; "LMSKarras"; "DPM2Karras";
    "DPM2AKarras"; "DPM2SAKarras"; "DPM2MKarras"; "DPMSDEKarras"; "DDIM";
    "PLMS"; "UniPC"; "Undefined"; "LCM"; "DDPM"; "DEIS" ].

(** [def get_lora_details(CIVITAI_MODELS, CIVITAI_VERSIONS, lora_id)] *)
Definition get_lora_details (CIVITAI_MODELS CIVITAI_VERSIONS lora_id : pyval)
  : prog (outcome pyval) :=
  def (
    try_except Exception (
      lora_data <- call (GetModelDetails CIVITAI_MODELS CIVITAI_VERSIONS lora_id) ;;
      is_lora <- and_then (ret (truthy lora_data))
                          (tag <- lift (py_get lora_data "type") ;;
                           ret (str_eq tag "LORA")) ;;
      if is_lora : bool then
        return_ lora_data
      else
        feedback_message [Lit "Model with ID "; Fmt lora_id; Lit " is not a LoRA."]
                         "error" ;;
        return_ PNone)
    (fun e =>
       feedback_message [Lit "Error fetching LoRA details: "; FmtExn e] "error" ;;
       return_ PNone)).

(** The value stored for a retained LoRA. *)
Definition lora_entry : pyval :=
  PDict [(PStr "type", PStr "Lora"); (PStr "strength", PFloat 1%float)].

(** The ["params"] of the request, and the request body [generate_image]
    starts from. *)
Definition generation_params
    (pos_prompt neg_prompt scheduler steps cfg_scale width height : pyval)
  : pyval :=
  PDict [ (PStr "prompt", pos_prompt);
          (PStr "negativePrompt", neg_prompt);
          (PStr "scheduler", scheduler);
          (PStr "steps", steps);
          (PStr "cfgScale", cfg_scale);
          (PStr "width", width);
          (PStr "height", height);
          (PStr "seed", PInt (-1));
          (PStr "clipSkip", PInt 1) ].

Definition request_body
    (air pos_prompt neg_prompt width height scheduler steps cfg_scale : pyval)
  : pyval :=
  PDict
    [ (PStr "model", air);
      (PStr "params",
       generation_params pos_prompt neg_prompt scheduler steps cfg_scale
                         width height) ].

(** One turn of the loop over [lora_list]: the body of
    [for lora_id in lora_list] in [generate_image], on [input_data]. *)
Definition add_lora (CIVITAI_MODELS CIVITAI_VERSIONS : pyval)
                    (input_data lora_id : pyval) : M pyval :=
  lora_data <- invoke (get_lora_details lora_id CIVITAI_MODELS CIVITAI_VERSIONS) ;;
  usable <- and_then (ret (truthy lora_data))
              (and_then (lift (py_contains lora_data "versions"))
                        (versions <- lift (py_getitem lora_data (PStr "versions")) ;;
                         ret (truthy versions))) ;;
  if usable : bool then
    versions <- lift (py_getitem lora_data (PStr "versions")) ;;
    first <- lift (py_getitem versions (PInt 0)) ;;
    lora_air <- lift (py_get first "air") ;;
    if truthy lora_air then
      networks <- lift (py_getitem input_data (PStr "additionalNetworks")) ;;
      networks' <- lift (py_setitem networks lora_air lora_entry) ;;
      input_data' <- lift (py_setitem input_data (PStr "additionalNetworks") networks') ;;
      feedback_message [Lit "Added LoRA: "; Fmt lora_air] "info" ;;
      ret input_data'
    else
      feedback_message [Lit "LoRA AIR not found for ID: "; Fmt lora_id] "warning" ;;
      ret input_data
  else
    feedback_message [Lit "Failed to get details for LoRA ID: "; Fmt lora_id]
                     "warning" ;;
    ret input_data.

(** [def generate_image(CIVITAI_MODELS, CIVITAI_VERSIONS, air, pos_prompt,
    neg_prompt, width, height, scheduler, steps, cfg_scale, lora_list)] *)
Definition generate_image
    (CIVITAI_MODELS CIVITAI_VERSIONS : pyval)
    (air pos_prompt neg_prompt width height scheduler steps cfg_scale : pyval)
    (lora_list : list pyval) : prog (outcome pyval) :=
  def (
    feedback_message [Lit "Generating the image..."] "info" ;;
    try_except Exception (
      let input_data :=
        request_body air pos_prompt neg_prompt width height scheduler steps cfg_scale in
      input_data <-
        match lora_list with
        | [] => ret input_data
        | _ =>
            input_data <- lift (py_setitem input_data (PStr "additionalNetworks")
                                           (PDict [])) ;;
            feedback_message
              [Lit "Processing "; Fmt (PInt (Z.of_nat (List.length lora_list)));
               Lit " LoRA models..."] "info" ;;
            for_each lora_list (add_lora CIVITAI_MODELS CIVITAI_VERSIONS) input_data
        end ;;
      feedback_message [Lit "Submitting image generation request..."] "info" ;;
      console_print "Input data:" "bold" ;;
      print_json input_data ;;
      response <- call (ImageCreate input_data) ;;
      feedback_message [Lit "Image generation request submitted successfully."]
                       "success" ;;
      return_ response)
    (fun e =>
       feedback_message [Lit "Error generating image: "; FmtExn e] "error" ;;
       return_ PNone)).

(** [def fetch_job_details(job_id, user_id, detailed)] *)
Definition fetch_job_details (job_id user_id detailed : pyval)
  : prog (outcome pyval) :=
  def (
    try_except Exception (
      if truthy job_id then
        job_details <- call (JobsGet job_id) ;;
        if truthy job_details then
          console_print "Job details:" "bold" ;;
          print_json job_details
        else
          feedback_message [Lit "No job details found."] "warning"
      else if truthy user_id then
        let query := PDict [(PStr "properties", PDict [(PStr "userId", user_id)])] in
        jobs <- call (JobsQuery detailed query) ;;
        if truthy jobs then
          console_print "Jobs:" "bold" ;;
          print_json jobs
        else
          feedback_message [Lit "No jobs found for the given user ID."] "warning"
      else
        feedback_message [Lit "Please provide either a job ID or a user ID."] "error")
    (fun e =>
       feedback_message [Lit "Error fetching job details: "; FmtExn e] "error")).

(** [def cancel_job(job_id)] *)
Definition cancel_job (job_id : pyval) : prog (outcome pyval) :=
  def (
    try_except Exception (
      response <- call (JobsCancel job_id) ;;
      if truthy response then
        console_print "Job cancellation response:" "bold" ;;
        print_json response
      else
        feedback_message [Lit "Failed to cancel the job."] "error")
    (fun e =>
       feedback_message [Lit "Error cancelling job: "; FmtExn e] "error")).

(** What [prompt(...).ask()] hands to the program. *)
Definition answer_value (a : option string) : pyval :=
  match a with
  | Some s => PStr s
  | None => PNone
  end.

(** [{'name': f"{v['id']} - {v['name']}", 'value': v}] *)
Definition version_choice (v : pyval) : outcome choice :=
  outcome_bind (py_getitem v (PStr "id")) (fun id =>
  outcome_bind (py_getitem v (PStr "name")) (fun name =>
  Value (Choice [Fmt id; Lit " - "; Fmt name] v))).

Fixpoint version_choices (versions : list pyval) : outcome (list choice) :=
  match versions with
  | [] => Value []
  | v :: rest =>
      outcome_bind (version_choice v) (fun c =>
      outcome_bind (version_choices rest) (fun cs => Value (c :: cs)))
  end.

Definition scheduler_choices : list choice :=
  map (fun s => Choice [Lit s] (PStr s)) SCHEDULERS.

(** [width_height.split("x")] *)
Definition split_x (width_height : option string) : outcome (list string) :=
  match width_height with
  | Some s => Value (split_on "x" s)
  | None => Raises (Exn AttributeError "split")
  end.

Section Builtins.

(** CPython's [int(s)] and [float(s)] on a [str]: [None] where they
    raise [ValueError]. *)
Variable int_of_str : string -> option Z.
Variable float_of_str : string -> option float.

(** [int(steps)] on what a prompt returned. *)
Definition py_int (a : option string) : outcome Z :=
  match a with
  | Some s =>
      match int_of_str s with
      | Some n => Value n
      | None => Raises (Exn ValueError "int")
      end
  | None => Raises (Exn TypeError "int")
  end.

(** [float(cfg_scale)] on what a prompt returned. *)
Definition py_float (a : option string) : outcome float :=
  match a with
  | Some s =>
      match float_of_str s with
      | Some x => Value x
      | None => Raises (Exn ValueError "float")
      end
  | None => Raises (Exn TypeError "float")
  end.

(** [width, height = map(int, parts)]: the parts are converted as the
    unpacking asks for them, and a third one is an error. *)
Definition unpack_two_ints (parts : list string) : outcome (Z * Z) :=
  match parts with
  | [] => Raises (Exn ValueError "unpack")
  | a :: rest =>
      match int_of_str a with
      | None => Raises (Exn ValueError "int")
      | Some width =>
          match rest with
          | [] => Raises (Exn ValueError "unpack")
          | b :: rest' =>
              match int_of_str b with
              | None => Raises (Exn ValueError "int")
              | Some height =>
                  match rest' with
                  | [] => Value (width, height)
                  | c :: _ =>
                      match int_of_str c with
                      | None => Raises (Exn ValueError "int")
                      | Some _ => Raises (Exn ValueError "unpack")
                      end
                  end
              end
          end
      end
  end.

(** [def create_image_cli(CIVITAI_MODELS, CIVITAI_VERSIONS,
    requested_model, lora_list)] *)
Definition create_image_cli
    (CIVITAI_MODELS CIVITAI_VERSIONS requested_model : pyval)
    (lora_list : list pyval) : prog (outcome pyval) :=
  def (
    try_except Exception (
      raw_model <- call (GetModelDetails CIVITAI_MODELS CIVITAI_VERSIONS
                                         requested_model) ;;
      processed_model <- call (ProcessModelData raw_model) ;;
      (if truthy processed_model then ret tt
       else
         feedback_message [Lit "No model found with ID: "; Fmt requested_model]
                          "error" ;;
         return_ PNone) ;;
      versions <- lift (py_getitem processed_model (PStr "versions")) ;;
      let selected_model := if truthy versions then processed_model else raw_model in
      (* Select version if multiple versions exist *)
      versions <- lift (py_getitem selected_model (PStr "versions")) ;;
      count <- lift (py_len versions) ;;
      arn <-
        (if 1 <? count then
           versions <- lift (py_getitem selected_model (PStr "versions")) ;;
           items <- lift (py_iter versions) ;;
           version_choices <- lift (version_choices items) ;;
           selected_version <- select_ask "Select a version" version_choices ;;
           if truthy selected_version then
             lift (py_getitem selected_version (PStr "air"))
           else
             feedback_message [Lit "No version selected. Aborting."] "error" ;;
             return_ PNone
         else
           versions <- lift (py_getitem selected_model (PStr "versions")) ;;
           first <- lift (py_getitem versions (PInt 0)) ;;
           lift (py_getitem first (PStr "air"))) ;;
      (* Gather image generation parameters *)
      pos_prompt <- prompt_ask "Enter positive prompt:" None ;;
      (if truthy (answer_value pos_prompt) then ret tt
       else
         feedback_message [Lit "Positive prompt is required."] "error" ;;
         return_ PNone) ;;
      neg_prompt <- prompt_ask "Enter negative prompt (optional):" None ;;
      width_height <- prompt_ask "Enter width x height (e.g., 1024x1024):"
                                 (Some "1024x1024") ;;
      size <-
        try_except is_ValueError
          (parts <- lift (split_x width_height) ;;
           lift (unpack_two_ints parts))
          (fun _ =>
             feedback_message
               [Lit "Invalid width x height format. Please use format like '1024x1024'."]
               "error" ;;
             return_ PNone) ;;
      let '(width, height) := size in
      scheduler <- select_ask "Select scheduler:" scheduler_choices ;;
      steps <- prompt_ask "Enter number of steps:" None ;;
      steps <-
        try_except is_ValueError
          (lift (py_int steps))
          (fun _ =>
             feedback_message
               [Lit "Invalid number of steps. Please enter an integer."] "error" ;;
             return_ PNone) ;;
      cfg_scale <- prompt_ask "Enter CFG scale:" None ;;
      cfg_scale <-
        try_except is_ValueError
          (lift (py_float cfg_scale))
          (fun _ =>
             feedback_message [Lit "Invalid CFG scale. Please enter a number."]
                              "error" ;;
             return_ PNone) ;;
      (* Generate image *)
      response <- invoke (generate_image CIVITAI_MODELS CIVITAI_VERSIONS
                            arn (answer_value pos_prompt) (answer_value neg_prompt)
                            (PInt width) (PInt height) scheduler (PInt steps)
                            (PFloat cfg_scale) lora_list) ;;
      if truthy response then
        console_print "Image generation response:" "bold" ;;
        print_json response ;;
        (* Fetch and display job details *)
        has_job_id <- lift (py_contains response "jobId") ;;
        if has_job_id : bool then
          job_id <- lift (py_getitem response (PStr "jobId")) ;;
          job_details <- invoke (call_positional_3 fetch_job_details [job_id]) ;;
          if truthy job_details then
            console_print "Job details:" "bold" ;;
            print_json job_details
          else ret tt
        else
          feedback_message [Lit "No job ID found in the response."] "warning"
      else
        feedback_message [Lit "Image generation failed."] "error")
    (fun e =>
       feedback_message [Lit "An unexpected error occurred: "; FmtExn e] "error")).

End Builtins.


Arguments generate_image : simpl never.
Arguments fetch_job_details : simpl never.
Arguments get_lora_details : simpl never.
Arguments scheduler_choices : simpl never.

(** ** Builtins for the examples

    [int(s)] on an ASCII string: surrounding whitespace, an optional sign,
    then decimal digits with single underscores between them. *)

Definition is_space (c : ascii) : bool :=
  let n := nat_of_ascii c in
  ((9 <=? n) && (n <=? 13) || (28 <=? n) && (n <=? 32))%nat.

Definition digit_of (c : ascii) : option Z :=
  let n := nat_of_ascii c in
  if ((48 <=? n) && (n <=? 57))%nat then Some (Z.of_nat (n - 48)) else None.

Fixpoint int_digits (s : string) (acc : Z) (after_digit : bool) : option Z :=
  match s with
  | EmptyString => if after_digit then Some acc else None
  | String c rest =>
      match digit_of c with
      | Some d => int_digits rest (10 * acc + d) true
      | None =>
          if Ascii.eqb c "_" && after_digit then int_digits rest acc false
          else None
      end
  end.

Fixpoint lstrip (s : string) : string :=
  match s with
  | String c rest => if is_space c then lstrip rest else s
  | EmptyString => EmptyString
  end.

Fixpoint rstrip (s : string) : string :=
  match s with
  | EmptyString => EmptyString
  | String c rest =>
      match rstrip rest with
      | EmptyString => if is_space c then EmptyString else String c EmptyString
      | kept => String c kept
      end
  end.

Definition ascii_int (s : string) : option Z :=
  match rstrip (lstrip s) with
  | String "-" digits => option_map Z.opp (int_digits digits 0 false)
  | String "+" digits => int_digits digits 0 false
  | digits => int_digits digits 0 false
  end.

(** [float(s)] on a plain string of decimal digits below [2^53], where the
    conversion is exact; the examples enter no other CFG scale. *)
Definition digits_float (s : string) : option float :=
  match int_digits s 0 false with
  | Some n =>
      if n <? 2 ^ 53 then Some (PrimFloat.of_uint63 (Uint63.of_Z n)) else None
  | None => None
  end.

(** ** Specifications *)

(** [always p Q]: every run of [p] satisfies [Q]. *)
Definition always {A} (p : prog A) (Q : list event -> A -> Prop) : Prop :=
  forall t a, runs p t a -> Q t a.

(** The script a run was an answer to. *)
Definition script_of (t : list event) : list reply :=
  flat_map (fun ev =>
    match ev with
    | Said _ => []
    | Asked _ _ r => [Answer r]
    | Called _ r => [Result r]
    end) t.

(** A width-height input of the form [<int>x<int>]: two strings [int]
    accepts, joined by the letter x. *)
Definition int_x_int (int_of_str : string -> option Z) (s : string) : Prop :=
  exists a b w h,
    s = (a ++ String "x" b)%string /\
    int_of_str a = Some w /\ int_of_str b = Some h.

(** The character occurs in the string. *)
Fixpoint occurs (c : ascii) (s : string) : bool :=
  match s with
  | EmptyString => false
  | String d rest => Ascii.eqb d c || occurs c rest
  end.

(** The type tag of a looked-up record is ["LORA"]. *)
Definition type_tag_is_lora (record : pyval) : bool :=
  match py_get record "type" with
  | Value tag => str_eq tag "LORA"
  | Raises _ => false
  end.

(** The lookup produced something [get_lora_details] lets through. *)
Definition tagged_lora (o : outcome pyval) : bool :=
  match o with
  | Value record => truthy record && type_tag_is_lora record
  | Raises _ => false
  end.

(** The record is kept, under the artifact reference of its first
    version. *)
Definition retained (record lora_air : pyval) : Prop :=
  tagged_lora (Value record) = true /\
  exists versions first,
    py_getitem record (PStr "versions") = Value versions /\
    truthy versions = true /\
    py_getitem versions (PInt 0) = Value first /\
    py_get first "air" = Value lora_air /\
    truthy lora_air = true.

(** The request body with its ["additionalNetworks"]. *)
Definition with_networks (input_data : pyval) (nets : list (pyval * pyval))
  : pyval :=
  match py_setitem input_data (PStr "additionalNetworks") (PDict nets) with
  | Value d => d
  | Raises _ => input_data
  end.

(** Messages of the flow. *)
Definition not_a_lora (id : pyval) : text :=
  [Lit "Model with ID "; Fmt id; Lit " is not a LoRA."].

Definition failed_warning (lora_id : pyval) : event :=
  Said (Feedback [Lit "Failed to get details for LoRA ID: "; Fmt lora_id] "warning").

Definition generating : event :=
  Said (Feedback [Lit "Generating the image..."] "info").

Definition unexpected (e : exn) : event :=
  Said (Feedback [Lit "An unexpected error occurred: "; FmtExn e] "error").

Definition invalid_size : event :=
  Said (Feedback
          [Lit "Invalid width x height format. Please use format like '1024x1024'."]
          "error").

(** The events from the submission of [input_data] on. *)
Definition submission (input_data : pyval) (response : outcome pyval)
  : list event :=
  [ Said (Feedback [Lit "Submitting image generation request..."] "info");
    Said (ConsolePrint "Input data:" "bold");
    Said (PrintJson input_data);
    Called (ImageCreate input_data) response;
    match response with
    | Value _ =>
        Said (Feedback [Lit "Image generation request submitted successfully."]
                       "success")
    | Raises e => Said (Feedback [Lit "Error generating image: "; FmtExn e] "error")
    end ].

Definition submission_result (response : outcome pyval) : pyval :=
  match response with
  | Value v => v
  | Raises _ => PNone
  end.

(** A message of the LoRA loop; the only one that formats the [lora_id]
    parameter of [get_lora_details] formats [id]. *)
Definition lora_feedback (id : pyval) (ev : event) : Prop :=
  match ev with
  | Said (Feedback msg _) => forall x, msg = not_a_lora x -> x = id
  | _ => False
  end.

(** An event of the LoRA loop: a message or a metadata lookup. *)
Definition lora_event (id : pyval) (ev : event) : Prop :=
  match ev with
  | Said (Feedback msg _) => forall x, msg = not_a_lora x -> x = id
  | Called (GetModelDetails _ _ _) _ => True
  | _ => False
  end.

(** An event of [generate_image]: the loop's, the printing of the request
    and its submission. *)
Definition generate_event (id : pyval) (ev : event) : Prop :=
  match ev with
  | Said (Feedback msg _) => forall x, msg = not_a_lora x -> x = id
  | Said (ConsolePrint line _) => line = "Input data:"
  | Said (PrintJson _) => True
  | Called (GetModelDetails _ _ _) _ => True
  | Called (ImageCreate _) _ => True
  | _ => False
  end.

(** Every lookup that produced no LoRA is followed by the error of
    [get_lora_details] and the warning of the loop. *)
Fixpoint warned (t : list event) : Prop :=
  match t with
  | Called (GetModelDetails lora_id _ _) o :: rest =>
      (tagged_lora o = false ->
       exists msg rest',
         rest = Said (Feedback msg "error") :: failed_warning lora_id :: rest') /\
      warned rest
  | _ :: rest => warned rest
  | [] => True
  end.

Section LoopSpec.

Variables CIVITAI_MODELS CIVITAI_VERSIONS : pyval.
Variable body : pyval.

(** One turn of the loop, started on [body] with the networks [nets]. *)
Definition turn_post (nets : list (pyval * pyval)) (lora_id : pyval)
           (t : list event) (c : completion pyval) : Prop :=
  exists o rest,
    t = Called (GetModelDetails lora_id CIVITAI_MODELS CIVITAI_VERSIONS) o :: rest /\
    Forall (lora_feedback CIVITAI_VERSIONS) rest /\
    (tagged_lora o = false ->
     exists msg, rest = [Said (Feedback msg "error"); failed_warning lora_id]) /\
    match c with
    | Normal input_data =>
        input_data = with_networks body nets \/
        exists record lora_air,
          o = Value record /\ retained record lora_air /\
          input_data = with_networks body (dict_store nets lora_air lora_entry)
    | Return _ => False
    | Raise _ => True
    end.

(** Where an entry of the networks comes from: it was there before the
    loop, or the loop stored it for a record it retained. *)
Definition from_old (nets : list (pyval * pyval)) (key v : pyval) : Prop :=
  In (key, v) nets \/ (v = lora_entry /\ exists w, In (key, w) nets).

Definition from_lookup (items : list pyval) (t : list event) (key v : pyval)
  : Prop :=
  v = lora_entry /\
  exists lora_id record,
    In lora_id items /\
    In (Called (GetModelDetails lora_id CIVITAI_MODELS CIVITAI_VERSIONS)
               (Value record)) t /\
    retained record key.

(** The loop over [items], started with the networks [nets]. *)
Record loop_post (nets : list (pyval * pyval)) (items : list pyval)
       (t : list event) (c : completion pyval) : Prop := {
  loop_events : Forall (lora_event CIVITAI_VERSIONS) t;
  loop_lookups :
    exists k,
      lookups t =
        map (fun l => GetModelDetails l CIVITAI_MODELS CIVITAI_VERSIONS)
            (firstn k items) /\
      (forall input_data, c = Normal input_data -> k = List.length items);
  loop_warned : warned t;
  loop_result :
    match c with
    | Normal input_data =>
        exists nets',
          input_data = with_networks body nets' /\
          forall key v, In (key, v) nets' ->
                        from_old nets key v \/ from_lookup items t key v
    | Return _ => False
    | Raise _ => True
    end }.

(** The runs of [generate_image]: the announcement, the loop when there
    are LoRAs, and then the submission or the report of what the loop
    raised. *)
Definition generate_image_run (lora_list : list pyval)
           (t : list event) (r : outcome pyval) : Prop :=
  exists t_loop c,
    match lora_list with
    | [] => t_loop = [] /\ c = Normal body
    | _ =>
        exists t',
          t_loop =
            Said (Feedback
                    [Lit "Processing "; Fmt (PInt (Z.of_nat (List.length lora_list)));
                     Lit " LoRA models..."] "info") :: t' /\
          loop_post [] lora_list t' c
    end /\
    match c with
    | Normal input_data =>
        exists response,
          t = generating :: t_loop ++ submission input_data response /\
          r = Value (submission_result response)
    | Raise e =>
        t = generating :: t_loop ++
              [Said (Feedback [Lit "Error generating image: "; FmtExn e] "error")] /\
        r = Value PNone
    | Return _ => False
    end.

End LoopSpec.

(** ** Example data *)

Definition models_url : pyval := PStr "https://civitai.com/api/v1/models".
Definition versions_url : pyval := PStr "https://civitai.com/api/v1/model-versions".

Definition checkpoint_air : pyval := PStr "urn:air:sdxl:checkpoint:civitai:101@202".
Definition lora_air : pyval := PStr "urn:air:sdxl:lora:civitai:7@8".

Definition checkpoint_record : pyval :=
  PDict [ (PStr "id", PInt 101);
          (PStr "type", PStr "Checkpoint");
          (PStr "versions",
           PList [PDict [ (PStr "id", PInt 202);
                          (PStr "name", PStr "v1.0");
                          (PStr "air", checkpoint_air) ]]) ].

Definition lora_record : pyval :=
  PDict [ (PStr "id", PInt 7);
          (PStr "type", PStr "LORA");
          (PStr "versions",
           PList [PDict [ (PStr "id", PInt 8);
                          (PStr "name", PStr "v1");
                          (PStr "air", lora_air) ]]) ].

Definition job_response : pyval :=
  PDict [(PStr "token", PStr "t0k3n"); (PStr "jobId", PStr "abc123")].

(** [generate_image] for a cat picture, with the given LoRA ids. *)
Definition example_generate (lora_list : list pyval) : prog (outcome pyval) :=
  generate_image models_url versions_url checkpoint_air
                 (PStr "a cat") (PStr "") (PInt 1024) (PInt 1024)
                 (PStr "EulerA") (PInt 20) (PFloat 7%float) lora_list.

(** The first lookup finds a LoRA, the second a checkpoint, the endpoint
    accepts the request. *)
Definition two_lookups_script : list reply :=
  [Result (Value lora_record); Result (Value checkpoint_record);
   Result (Value job_response)].

(** The only lookup finds nothing, the endpoint accepts the request. *)
Definition failed_lookup_script : list reply :=
  [Result (Value PNone); Result (Value job_response)].

Definition job_status : pyval :=
  PDict [(PStr "jobId", PStr "abc123"); (PStr "scheduled", PBool true)].

Definition service_unavailable : exn :=
  Exn (OtherError "ApiException") "503 Service Unavailable".

(** What the job reporter prints for an answer of the remote client. *)
Definition job_report (heading : string) (nothing_found : text)
           (failure : string) (response : outcome pyval) : list event :=
  match response with
  | Value found =>
      if truthy found
      then [Said (ConsolePrint heading "bold"); Said (PrintJson found)]
      else [Said (Feedback nothing_found "warning")]
  | Raises e => [Said (Feedback [Lit failure; FmtExn e] "error")]
  end.

(** The run ends with the events [suffix]. *)
Definition ends_with (t suffix : list event) : Prop :=
  exists before, t = before ++ suffix.

(** The prompts of the interactive collector. *)
Definition positive_prompt (answer : outcome (option string)) : event :=
  Asked "Enter positive prompt:" None answer.

Definition size_prompt (answer : outcome (option string)) : event :=
  Asked "Enter width x height (e.g., 1024x1024):" (Some "1024x1024") answer.

Definition steps_prompt (answer : outcome (option string)) : event :=
  Asked "Enter number of steps:" None answer.

Definition cfg_prompt (answer : outcome (option string)) : event :=
  Asked "Enter CFG scale:" None answer.

(** The metadata of a model with one version, and a session at the
    console: the operator's answers from the positive prompt on. *)
Definition found_model : list reply :=
  [Result (Value checkpoint_record); Result (Value checkpoint_record)].

Definition session (positive size steps cfg : string) : list reply :=
  found_model ++
  [ Answer (Value (Some positive)); Answer (Value (Some ""));
    Answer (Value (Some size)); Result (Value (PStr "EulerA"));
    Answer (Value (Some steps)); Answer (Value (Some cfg));
    Result (Value job_response) ].

(** A session that enters everything well, and one that stops at a
    malformed size. *)
Definition good_session : list reply := session "a cat" "1024x1024" "20" "7".

Definition bad_size_session : list reply :=
  found_model ++
  [ Answer (Value (Some "a cat")); Answer (Value (Some ""));
    Answer (Value (Some "1024*1024")) ].

(** [create_image_cli] for model 101, without LoRAs. *)
Definition example_cli : prog (outcome pyval) :=
  create_image_cli ascii_int digits_float models_url versions_url (PInt 101) [].

(** ** More specifications and example data *)

(** The networks hold an entry for the artifact reference: under that
    very key, or under an earlier key equal to it. *)
Definition kept (nets : list (pyval * pyval)) (lora_air : pyval) : Prop :=
  exists key,
    In (key, lora_entry) nets /\ (key = lora_air \/ key_eqb key lora_air = true).

(** No key of the entries equals a later one. *)
Fixpoint distinct_keys (entries : list (pyval * pyval)) : Prop :=
  match entries with
  | [] => True
  | (k, _) :: rest =>
      Forall (fun kv => key_eqb k (fst kv) = false) rest /\ distinct_keys rest
  end.


Section NetworksSpec.

Variables CIVITAI_MODELS CIVITAI_VERSIONS : pyval.
Variable body : pyval.

(** What the loop over the LoRA ids [items] makes of the networks
    [nets]. *)
Definition loop_net_post (items : list pyval) (nets : list (pyval * pyval))
           (t : list event) (c : completion pyval) : Prop :=
  forall input_data,
    c = Normal input_data ->
    exists nets',
      input_data = with_networks body nets' /\
      (List.length nets' <= List.length nets + List.length items)%nat /\
      (distinct_keys nets -> distinct_keys nets') /\
      (forall lora_air, kept nets lora_air -> kept nets' lora_air) /\
      forall lora_id record lora_air,
        In (Called (GetModelDetails lora_id CIVITAI_MODELS CIVITAI_VERSIONS)
                   (Value record)) t ->
        retained record lora_air ->
        kept nets' lora_air.

End NetworksSpec.

Definition invalid_steps : event :=
  Said (Feedback [Lit "Invalid number of steps. Please enter an integer."] "error").

Definition invalid_cfg : event :=
  Said (Feedback [Lit "Invalid CFG scale. Please enter a number."] "error").

(** The choice offered for a version: the version itself, under the name
    [f"{v['id']} - {v['name']}"]. *)
Definition offered (version : pyval) (c : choice) : Prop :=
  choice_value c = version /\
  exists id name,
    py_getitem version (PStr "id") = Value id /\
    py_getitem version (PStr "name") = Value name /\
    choice_name c = [Fmt id; Lit " - "; Fmt name].

(** In the trace, [second] comes right after [first]. *)
Definition followed_by (t : list event) (first second : event) : Prop :=
  exists before after, t = before ++ first :: second :: after.

Definition first_version : pyval :=
  PDict [ (PStr "id", PInt 202); (PStr "name", PStr "v1.0");
          (PStr "air", checkpoint_air) ].

Definition second_version : pyval :=
  PDict [ (PStr "id", PInt 203); (PStr "name", PStr "v2.0");
          (PStr "air", PStr "urn:air:sdxl:checkpoint:civitai:101@203") ].

Definition two_versions_record : pyval :=
  PDict [ (PStr "id", PInt 101);
          (PStr "type", PStr "Checkpoint");
          (PStr "versions", PList [first_version; second_version]) ].

Definition versionless_record : pyval :=
  PDict [ (PStr "id", PInt 101);
          (PStr "type", PStr "Checkpoint");
          (PStr "versions", PList []) ].

(** Sessions that end early: nothing found, no versions, the version
    selection cancelled, a cancelled size, steps and a CFG scale that are
    no numbers. *)
Definition nothing_found_session : list reply :=
  [Result (Value PNone); Result (Value PNone)].

Definition versionless_session : list reply :=
  [Result (Value versionless_record); Result (Value versionless_record)].

Definition cancelled_version_session : list reply :=
  [ Result (Value two_versions_record); Result (Value two_versions_record);
    Result (Value PNone) ].

Definition cancelled_size_session : list reply :=
  found_model ++
  [ Answer (Value (Some "a cat")); Answer (Value (Some "")); Answer (Value None) ].

Definition bad_steps_session : list reply :=
  found_model ++
  [ Answer (Value (Some "a cat")); Answer (Value (Some ""));
    Answer (Value (Some "512x768")); Result (Value (PStr "Euler"));
    Answer (Value (Some "twenty")) ].

Definition bad_cfg_session : list reply :=
  found_model ++
  [ Answer (Value (Some "a cat")); Answer (Value (Some ""));
    Answer (Value (Some "512x768")); Result (Value (PStr "Euler"));
    Answer (Value (Some "20")); Answer (Value (Some "high")) ].

(** The processed record has lost its versions, the raw one has them. *)
Definition fallback_session : list reply :=
  [ Result (Value checkpoint_record); Result (Value versionless_record);
    Answer (Value (Some "a cat")); Answer (Value (Some ""));
    Answer (Value (Some "1024x1024")); Result (Value (PStr "EulerA"));
    Answer (Value (Some "20")); Answer (Value (Some "7"));
    Result (Value job_response) ].

(** The request of [good_session]. *)
Definition good_request : pyval :=
  request_body checkpoint_air (PStr "a cat") (PStr "") (PInt 1024) (PInt 1024)
               (PStr "EulerA") (PInt 20) (PFloat 7%float).

(** Both lookups find the same LoRA, the endpoint accepts the request. *)
Definition shared_reference_script : list reply :=
  [Result (Value lora_record); Result (Value lora_record);
   Result (Value job_response)].

(** The request of the runs of [two_lookups_script] and
    [shared_reference_script]. *)
Definition two_lookups_request : pyval :=
  PDict [ (PStr "model", checkpoint_air);
          (PStr "params",
           generation_params (PStr "a cat") (PStr "") (PStr "EulerA") (PInt 20)
                             (PFloat 7%float) (PInt 1024) (PInt 1024));
          (PStr "additionalNetworks", PDict [(lora_air, lora_entry)]) ].

(** ** Reasoning about runs *)

Lemma runs_Ret_inv {A} (a b : A) t : runs (Ret a) t b -> t = [] /\ b = a.
Proof. intros H; inversion H; subst; auto. Qed.

Lemma runs_Tell_inv {A} o (k : prog A) t a :
  runs (Tell o k) t a -> exists t', t = Said o :: t' /\ runs k t' a.
Proof. intros H; inversion H; subst; eauto. Qed.

Lemma runs_Prompt_inv {A} message default (k : _ -> prog A) t a :
  runs (Prompt message default k) t a ->
  exists r t', t = Asked message default r :: t' /\ runs (k r) t' a.
Proof. intros H; inversion H; subst; eauto. Qed.

Lemma runs_Call_inv {A} c (k : _ -> prog A) t a :
  runs (Call c k) t a ->
  exists r t', t = Called c r :: t' /\ runs (k r) t' a.
Proof. intros H; inversion H; subst; eauto. Qed.

Lemma runs_bind_inv {A B} (m : prog A) (f : A -> prog B) t b :
  runs (prog_bind m f) t b ->
  exists t1 t2 a, t = t1 ++ t2 /\ runs m t1 a /\ runs (f a) t2 b.
Proof.
  revert t. induction m as [a | o k IH | message default k IH | c k IH]; intros t H.
  - exists [], t, a. repeat split; [constructor | exact H].
  - apply runs_Tell_inv in H as (t' & -> & H).
    apply IH in H as (t1 & t2 & a & -> & H1 & H2).
    exists (Said o :: t1), t2, a. repeat split; [constructor | ]; assumption.
  - apply runs_Prompt_inv in H as (r & t' & -> & H).
    apply IH in H as (t1 & t2 & a & -> & H1 & H2).
    exists (Asked message default r :: t1), t2, a.
    repeat split; [constructor | ]; assumption.
  - apply runs_Call_inv in H as (r & t' & -> & H).
    apply IH in H as (t1 & t2 & a & -> & H1 & H2).
    exists (Called c r :: t1), t2, a. repeat split; [constructor | ]; assumption.
Qed.

Lemma runs_bind {A B} (m : prog A) (f : A -> prog B) t1 t2 a b :
  runs m t1 a -> runs (f a) t2 b -> runs (prog_bind m f) (t1 ++ t2) b.
Proof.
  induction 1; intros H2; cbn; try constructor; auto.
Qed.

(** The script interpreter produces a run, and every run is the
    interpreter's on the script of its answers: the program reaches a
    result whatever it is answered. *)
Lemma exec_sound {A} (p : prog A) script :
  runs p (fst (exec p script)) (snd (exec p script)).
Proof.
  revert script. induction p as [a | o k IH | message default k IH | c k IH];
    intros script; cbn.
  - constructor.
  - specialize (IH script). destruct (exec k script). constructor. exact IH.
  - match goal with |- context [exec (k ?r) ?s] =>
      specialize (IH r s); destruct (exec (k r) s) end.
    constructor. exact IH.
  - match goal with |- context [exec (k ?r) ?s] =>
      specialize (IH r s); destruct (exec (k r) s) end.
    constructor. exact IH.
Qed.

Lemma exec_runs {A} (p : prog A) script t a :
  exec p script = (t, a) -> runs p t a.
Proof.
  intros E. pose proof (exec_sound p script) as H. rewrite E in H. exact H.
Qed.

Lemma exec_complete {A} (p : prog A) t a :
  runs p t a -> exec p (script_of t) = (t, a).
Proof.
  unfold script_of. induction 1; cbn; try rewrite IHruns; reflexivity.
Qed.

Ltac peel H :=
  let t := fresh "t" in
  let r := fresh "r" in
  lazymatch type of H with
  | runs (Ret _) _ _ =>
      apply runs_Ret_inv in H; destruct H as [-> ->]
  | runs (Tell _ _) _ _ =>
      apply runs_Tell_inv in H; destruct H as (t & -> & H)
  | runs (Prompt _ _ _) _ _ =>
      apply runs_Prompt_inv in H; destruct H as (r & t & -> & H)
  | runs (Call _ _) _ _ =>
      apply runs_Call_inv in H; destruct H as (r & t & -> & H)
  end.

Lemma always_Ret {A} (a : A) (Q : list event -> A -> Prop) :
  Q [] a -> always (Ret a) Q.
Proof. intros HQ t b H. peel H. exact HQ. Qed.

Lemma always_Tell {A} o (k : prog A) (Q : list event -> A -> Prop) :
  always k (fun t => Q (Said o :: t)) -> always (Tell o k) Q.
Proof. intros Hk t b H. peel H. apply Hk, H. Qed.

Lemma always_Prompt {A} message default (k : _ -> prog A)
      (Q : list event -> A -> Prop) :
  (forall r, always (k r) (fun t => Q (Asked message default r :: t))) ->
  always (Prompt message default k) Q.
Proof. intros Hk t b H. peel H. eapply Hk, H. Qed.

Lemma always_Call {A} c (k : _ -> prog A) (Q : list event -> A -> Prop) :
  (forall r, always (k r) (fun t => Q (Called c r :: t))) ->
  always (Call c k) Q.
Proof. intros Hk t b H. peel H. eapply Hk, H. Qed.

Lemma always_bind {A B} (m : prog A) (f : A -> prog B)
      (Q : list event -> B -> Prop) :
  always m (fun t1 a => always (f a) (fun t2 => Q (t1 ++ t2))) ->
  always (prog_bind m f) Q.
Proof.
  intros Hm t b H. apply runs_bind_inv in H as (t1 & t2 & a & -> & H1 & H2).
  exact (Hm t1 a H1 t2 b H2).
Qed.

Lemma always_weaken {A} (p : prog A) (Q Q' : list event -> A -> Prop) :
  always p Q -> (forall t a, Q t a -> Q' t a) -> always p Q'.
Proof. intros H HQ t a Hr. apply HQ, H, Hr. Qed.

(** Symbolic execution: one interaction, or one case split on what the
    program branches on next. *)
Ltac head_of p :=
  lazymatch p with
  | prog_bind ?m _ => head_of m
  | _ => p
  end.

Ltac unfold_ops :=
  unfold def, try_except, and_then, bind, call, select_ask, prompt_ask, invoke,
    feedback_message, console_print, print_json, ret, return_, raise, Exception.

(** Going under the binds to the computation that runs first. *)
Ltac focus :=
  repeat lazymatch goal with
    | |- always (prog_bind (prog_bind _ _) _) _ => refine (always_bind _ _ _ _)
    end;
  lazymatch goal with
  | |- always (prog_bind _ _) _ => refine (always_bind _ _ _ _)
  end.

Ltac split_on_ x := first [ is_var x; destruct x | destruct x eqn:? ].

Ltac step :=
  lazymatch goal with
  | |- always ?p _ =>
      let h := head_of p in
      lazymatch h with
      | Ret _ => apply always_Ret
      | Tell _ _ => apply always_Tell
      | Prompt _ _ _ => apply always_Prompt; intros ?
      | Call _ _ => apply always_Call; intros ?
      | lift (if ?b then _ else _) => split_on_ b
      | lift (match ?x with _ => _ end) => split_on_ x
      | lift ?o => split_on_ o
      | (if ?b then _ else _) => split_on_ b
      | (match ?x with _ => _ end) => split_on_ x
      end; cbn
  end.

(** ** Views of a trace *)

Lemma calls_app t1 t2 : calls (t1 ++ t2) = calls t1 ++ calls t2.
Proof. apply flat_map_app. Qed.

Lemma lookups_app t1 t2 : lookups (t1 ++ t2) = lookups t1 ++ lookups t2.
Proof. unfold lookups. rewrite calls_app. apply filter_app. Qed.

Lemma submitted_app t1 t2 : submitted (t1 ++ t2) = submitted t1 ++ submitted t2.
Proof. unfold submitted. rewrite calls_app. apply flat_map_app. Qed.

Lemma remote_calls_app t1 t2 :
  remote_calls (t1 ++ t2) = remote_calls t1 ++ remote_calls t2.
Proof. unfold remote_calls. rewrite calls_app. apply filter_app. Qed.

Lemma network_calls_app t1 t2 :
  network_calls (t1 ++ t2) = network_calls t1 ++ network_calls t2.
Proof. unfold network_calls. rewrite calls_app. apply filter_app. Qed.

Lemma feedback_calls id t : Forall (lora_feedback id) t -> calls t = [].
Proof.
  induction 1 as [| ev t Hev _ IH]; [reflexivity|].
  destruct ev as [[] | |]; cbn in *; try contradiction. exact IH.
Qed.

Lemma feedback_lora_event id t :
  Forall (lora_feedback id) t -> Forall (lora_event id) t.
Proof.
  apply Forall_impl. intros ev; destruct ev as [[] | |]; cbn; auto; contradiction.
Qed.

Lemma warned_feedback_app id t1 t2 :
  Forall (lora_feedback id) t1 -> warned t2 -> warned (t1 ++ t2).
Proof.
  induction 1 as [| ev t Hev _ IH]; intros H2; [exact H2|].
  destruct ev as [[] | |]; cbn in *; try contradiction. auto.
Qed.

Lemma lora_event_submitted id t : Forall (lora_event id) t -> submitted t = [].
Proof.
  induction 1 as [| ev t Hev _ IH]; [reflexivity|].
  destruct ev as [[] | | []]; cbn in *; try contradiction; exact IH.
Qed.

Lemma lora_event_remote id t : Forall (lora_event id) t -> remote_calls t = [].
Proof.
  induction 1 as [| ev t Hev _ IH]; [reflexivity|].
  destruct ev as [[] | | []]; cbn in *; try contradiction; exact IH.
Qed.

Lemma dict_store_entries nets key e k v :
  In (k, v) (dict_store nets key e) ->
  In (k, v) nets \/ (v = e /\ (k = key \/ exists w, In (k, w) nets)).
Proof.
  induction nets as [| [k0 w0] nets IH]; cbn.
  - intros [H | []]. inversion H; subst. right; auto.
  - destruct (key_eqb k0 key).
    + intros [H | H].
      * inversion H; subst. right. split; [reflexivity|]. right; eauto.
      * left; auto.
    + intros [H | H]; [left; auto|].
      destruct (IH H) as [? | (-> & [-> | (w & ?)])]; eauto 8.
Qed.

(** ** The LoRA resolver *)

Lemma get_lora_details_spec a b c :
  always (get_lora_details a b c) (fun t r =>
    exists o,
      if tagged_lora o then
        exists record, o = Value record /\
          t = [Called (GetModelDetails a b c) o] /\ r = Value record
      else
        exists msg,
          t = [Called (GetModelDetails a b c) o; Said (Feedback msg "error")] /\
          (forall x, msg = not_a_lora x -> x = c) /\
          r = Value PNone).
Proof.
  unfold get_lora_details. unfold_ops. cbn.
  repeat step;
    match goal with
    | |- context [Called _ ?o] =>
        exists o; unfold tagged_lora, type_tag_is_lora
    end.
  all: repeat match goal with H : _ = _ |- _ => rewrite H end; cbn.
  all: try (eexists; split; [reflexivity|]; split; [|reflexivity]).
  all: try (intros x Hx; inversion Hx; reflexivity).
  eauto.
Qed.

Section Loop.

Variables CIVITAI_MODELS CIVITAI_VERSIONS : pyval.
Variables air pos_prompt neg_prompt width height scheduler steps cfg_scale : pyval.

Let body : pyval :=
  request_body air pos_prompt neg_prompt width height scheduler steps cfg_scale.

Lemma add_lora_spec nets lora_id :
  always (add_lora CIVITAI_MODELS CIVITAI_VERSIONS (with_networks body nets) lora_id)
         (turn_post CIVITAI_MODELS CIVITAI_VERSIONS body nets lora_id).
Proof.
  unfold add_lora. unfold invoke at 1. unfold bind at 1.
  apply always_bind. apply always_bind.
  eapply always_weaken; [apply get_lora_details_spec|].
  cbn beta. intros t r [o Ho].
  destruct (tagged_lora o) eqn:Etag.
  - destruct Ho as (record & -> & -> & ->).
    pose proof Etag as Etag'.
    unfold tagged_lora, type_tag_is_lora in Etag.
    apply andb_prop in Etag as [Et Etag].
    unfold_ops. cbn. apply always_Ret. cbn. rewrite Et. cbn.
    repeat step.
    all: unfold turn_post; eexists; eexists; (split; [reflexivity|]).
    all: split; [repeat constructor; intros x Hx; inversion Hx|].
    all: split; [congruence|].
    all: cbn; auto.
    right. eexists; eexists. split; [reflexivity|]. split; [|reflexivity].
    split; [exact Etag'|]. eauto 10.
  - destruct Ho as (msg & -> & Hmsg & ->).
    unfold_ops. cbn. apply always_Ret. cbn. apply always_Tell, always_Ret.
    unfold turn_post. eexists; eexists; (split; [reflexivity|]).
    split; [repeat constructor; [exact Hmsg | intros x Hx; inversion Hx]|].
    split; [eauto|]. left; reflexivity.
Qed.

Lemma lora_loop_spec items : forall nets,
  always (for_each items (add_lora CIVITAI_MODELS CIVITAI_VERSIONS)
                   (with_networks body nets))
         (loop_post CIVITAI_MODELS CIVITAI_VERSIONS body nets items).
Proof.
  induction items as [| lora_id items IH]; intros nets.
  - cbn. apply always_Ret. split; cbn; auto.
    + exists 0%nat. split; auto.
    + exists nets. split; [reflexivity|]. intros key v H. left; left; exact H.
  - cbn [for_each]. unfold bind at 1. apply always_bind.
    eapply always_weaken; [apply add_lora_spec|].
    intros t1 c1 (o & rest & -> & Hrest & Hwarn & Hc).
    assert (Hlook : lookups (Called (GetModelDetails lora_id CIVITAI_MODELS
                                       CIVITAI_VERSIONS) o :: rest)
                    = [GetModelDetails lora_id CIVITAI_MODELS CIVITAI_VERSIONS]).
    { change (Called ?c o :: rest) with ([Called c o] ++ rest).
      rewrite lookups_app. unfold lookups at 2.
      rewrite (feedback_calls _ _ Hrest). reflexivity. }
    destruct c1 as [input_data | v | e]; [| contradiction |].
    + assert (Hnets : exists nets1,
                 input_data = with_networks body nets1 /\
                 forall key v, In (key, v) nets1 ->
                   from_old nets key v \/
                   (v = lora_entry /\ exists record,
                      o = Value record /\ retained record key)).
      { destruct Hc as [-> | (record & lora_air & -> & Hret & ->)].
        - exists nets. split; [reflexivity|]. intros key v H; left; left; exact H.
        - eexists. split; [reflexivity|]. intros key v H.
          apply dict_store_entries in H as [H | (-> & [-> | H])].
          + left; left; exact H.
          + right. eauto.
          + left; right; auto. }
      destruct Hnets as (nets1 & -> & Hnets1).
      eapply always_weaken; [apply IH|].
      intros t2 c2 [Hev (k & Hk & Hlen) Hw Hres].
      split.
      * cbn. constructor; [exact I|]. apply Forall_app. split; [|exact Hev].
        eapply feedback_lora_event, Hrest.
      * exists (S k). split.
        -- change (Called ?c ?o :: rest ++ t2) with ((Called c o :: rest) ++ t2).
           rewrite lookups_app, Hlook, Hk. reflexivity.
        -- intros input_data Hin. cbn. f_equal. eapply Hlen, Hin.
      * cbn. split.
        -- intros Hfalse. destruct (Hwarn Hfalse) as (msg & ->). cbn. eauto.
        -- eapply warned_feedback_app; eassumption.
      * destruct c2 as [input_data | v | e]; auto.
        destruct Hres as (nets' & -> & Hprov).
        exists nets'. split; [reflexivity|]. intros key v Hin.
        destruct (Hprov key v Hin)
          as [[H | (-> & w & H)] | (-> & l & record & Hl & Hcall & Hret)].
        -- destruct (Hnets1 key v H) as [? | (-> & record & -> & Hret)];
             [left; assumption|].
           right. split; [reflexivity|]. exists lora_id, record.
           split; [left; reflexivity|]. split; [left; reflexivity| exact Hret].
        -- destruct (Hnets1 key w H)
             as [[? | (_ & w' & ?)] | (_ & record & -> & Hret)].
           ++ left; right; eauto.
           ++ left; right; eauto.
           ++ right. split; [reflexivity|]. exists lora_id, record.
              split; [left; reflexivity|]. split; [left; reflexivity| exact Hret].
        -- right. split; [reflexivity|]. exists l, record.
           split; [right; exact Hl|]. split; [|exact Hret].
           right. apply in_or_app. right. exact Hcall.
    + apply always_Ret. rewrite app_nil_r. split.
      * cbn. constructor; [exact I|]. eapply feedback_lora_event, Hrest.
      * exists 1%nat. split; [rewrite Hlook; reflexivity | discriminate].
      * cbn. split.
        -- intros Hfalse. destruct (Hwarn Hfalse) as (msg & ->). eauto.
        -- rewrite <- (app_nil_r rest). eapply warned_feedback_app; cbn; eauto.
      * exact I.
Qed.

Lemma generate_image_spec lora_list :
  always (generate_image CIVITAI_MODELS CIVITAI_VERSIONS air pos_prompt neg_prompt
                         width height scheduler steps cfg_scale lora_list)
         (generate_image_run CIVITAI_MODELS CIVITAI_VERSIONS body lora_list).
Proof.
  unfold generate_image. unfold_ops.
  destruct lora_list as [| lora_id items].
  - cbn. repeat step.
    + exists [], (Normal body). split; [auto|].
      exists (Value a). split; reflexivity.
    + exists [], (Normal body). split; [auto|].
      exists (Raises e). split; reflexivity.
  - set (loras := lora_id :: items).
    cbn -[for_each loras]. apply always_Tell. apply always_Tell.
    focus.
    eapply always_weaken; [apply (lora_loop_spec loras [])|].
    cbn beta. intros t c Hloop.
    pose proof (loop_result _ _ _ _ _ _ _ Hloop) as Hres.
    destruct c as [input_data | v | e]; [| contradiction |]; cbn.
    + repeat step.
      * exists (Said (Feedback [Lit "Processing "; Fmt (PInt (Z.of_nat (List.length loras))); Lit " LoRA models..."] "info") :: t), (Normal input_data). split; [exists t; split; [reflexivity | exact Hloop]|].
        exists (Value a). cbn. rewrite ?app_nil_r, <- ?app_assoc. split; reflexivity.
      * exists (Said (Feedback [Lit "Processing "; Fmt (PInt (Z.of_nat (List.length loras))); Lit " LoRA models..."] "info") :: t), (Normal input_data). split; [exists t; split; [reflexivity | exact Hloop]|].
        exists (Raises e). cbn. rewrite ?app_nil_r, <- ?app_assoc. split; reflexivity.
    + repeat step.
      exists (Said (Feedback [Lit "Processing "; Fmt (PInt (Z.of_nat (List.length loras))); Lit " LoRA models..."] "info") :: t), (Raise e). split; [exists t; split; [reflexivity | exact Hloop]|].
      cbn. rewrite ?app_nil_r, <- ?app_assoc. split; reflexivity.
Qed.

End Loop.

Lemma warned_app t1 t2 : warned t1 -> warned t2 -> warned (t1 ++ t2).
Proof.
  induction t1 as [| ev t1 IH]; intros H1 H2; [exact H2|].
  destruct ev as [o | message default answer | [] r]; cbn in *; auto.
  destruct H1 as [Hnext H1]. split; [|auto].
  intros Hfalse. destruct (Hnext Hfalse) as (msg & rest' & ->). cbn. eauto.
Qed.

Lemma warned_at before lora_id a b o after :
  warned (before ++ Called (GetModelDetails lora_id a b) o :: after) ->
  tagged_lora o = false ->
  exists msg after',
    after = Said (Feedback msg "error") :: failed_warning lora_id :: after'.
Proof.
  induction before as [| ev before IH]; cbn.
  - intros [H _] Hfalse. exact (H Hfalse).
  - destruct ev as [x | message default answer | [] r]; cbn; try exact IH.
    intros [_ H]. exact (IH H).
Qed.

Lemma submission_views input_data response :
  submitted (submission input_data response) = [input_data] /\
  lookups (submission input_data response) = [] /\
  remote_calls (submission input_data response) = [ImageCreate input_data] /\
  warned (submission input_data response).
Proof. destruct response; cbn; auto. Qed.

Section GenerateImage.

Variables CIVITAI_MODELS CIVITAI_VERSIONS : pyval.
Variables air pos_prompt neg_prompt width height scheduler steps cfg_scale : pyval.
Variable lora_list : list pyval.

Let body : pyval :=
  request_body air pos_prompt neg_prompt width height scheduler steps cfg_scale.

Let run := generate_image_run CIVITAI_MODELS CIVITAI_VERSIONS body lora_list.

(** The loop of a run of [generate_image], whatever the list. *)
Lemma run_loop t r :
  run t r ->
  exists t_loop c nets,
    Forall (lora_event CIVITAI_VERSIONS) t_loop /\
    (exists k,
       lookups t_loop =
         map (fun l => GetModelDetails l CIVITAI_MODELS CIVITAI_VERSIONS)
             (firstn k lora_list) /\
       (forall input_data, c = Normal input_data -> k = List.length lora_list)) /\
    warned t_loop /\
    match c with
    | Normal input_data =>
        input_data = match lora_list with
                     | [] => body
                     | _ => with_networks body nets
                     end /\
        (forall key v, In (key, v) nets ->
           from_lookup CIVITAI_MODELS CIVITAI_VERSIONS lora_list t_loop key v) /\
        exists response,
          t = generating :: t_loop ++ submission input_data response /\
          r = Value (submission_result response)
    | Raise e =>
        t = generating :: t_loop ++
              [Said (Feedback [Lit "Error generating image: "; FmtExn e] "error")] /\
        r = Value PNone
    | Return _ => False
    end.
Proof.
  intros (t_loop & c & Hloop & Hc). unfold run, generate_image_run in *.
  destruct lora_list as [| lora_id items] eqn:Elist.
  - destruct Hloop as [-> ->]. exists [], (Normal body), []. cbn.
    split; [constructor|]. split; [exists 0%nat; split; auto|].
    split; [exact I|]. split; [reflexivity|]. split; [|exact Hc].
    intros ? ? [].
  - destruct Hloop as (t' & Et & [Hev (k & Hk & Hlen) Hw Hres]).
    assert (Hev' : Forall (lora_event CIVITAI_VERSIONS) t_loop).
    { rewrite Et. constructor; [|exact Hev]. intros x Hx; inversion Hx. }
    assert (Hk' : lookups t_loop = lookups t') by (rewrite Et; reflexivity).
    assert (Hw' : warned t_loop) by (rewrite Et; exact Hw).
    destruct c as [input_data | v | e]; [| contradiction |].
    + destruct Hres as (nets & -> & Hprov).
      exists t_loop, (Normal (with_networks body nets)), nets.
      split; [exact Hev'|]. split; [|split; [exact Hw'|]].
      * exists k. rewrite Hk'. split; [exact Hk|]. intros ? _. eapply Hlen. reflexivity.
      * split; [reflexivity|]. split; [|exact Hc].
        intros key v Hin. destruct (Hprov key v Hin) as [[[] | (_ & w & [])] | H].
        destruct H as (-> & l & record & Hl & Hcall & Hret).
        split; [reflexivity|]. exists l, record.
        split; [exact Hl|]. split; [rewrite Et; right; exact Hcall | exact Hret].
    + exists t_loop, (Raise e), []. split; [exact Hev'|]. split; [|split; [exact Hw'|]].
      * exists k. rewrite Hk'. split; [exact Hk | discriminate].
      * exact Hc.
Qed.

Lemma run_submitted t r input_data :
  run t r -> In input_data (submitted t) ->
  exists nets,
    input_data = match lora_list with
                 | [] => body
                 | _ => with_networks body nets
                 end /\
    forall key v, In (key, v) nets ->
      from_lookup CIVITAI_MODELS CIVITAI_VERSIONS lora_list t key v.
Proof.
  intros Hrun Hin.
  destruct (run_loop t r Hrun) as (t_loop & c & nets & Hev & _ & _ & Hc).
  destruct c as [input | v | e]; [| contradiction |].
  - destruct Hc as (-> & Hprov & response & -> & _).
    change (generating :: ?l) with ([generating] ++ l) in Hin.
    rewrite !submitted_app, (lora_event_submitted _ _ Hev) in Hin.
    destruct (submission_views
                (match lora_list with [] => body | _ => with_networks body nets end)
                response) as (Hs & _).
    rewrite Hs in Hin. destruct Hin as [<- | []].
    exists nets. split; [reflexivity|].
    intros key v Hk. destruct (Hprov key v Hk) as (-> & l & record & Hl & Hcall & Hret).
    split; [reflexivity|]. exists l, record. split; [exact Hl|]. split; [|exact Hret].
    right. apply in_or_app. left. exact Hcall.
  - destruct Hc as (-> & _).
    change (generating :: ?l) with ([generating] ++ l) in Hin.
    rewrite !submitted_app, (lora_event_submitted _ _ Hev) in Hin.
    destruct Hin.
Qed.

Lemma run_warned t r : run t r -> warned t.
Proof.
  intros Hrun.
  destruct (run_loop t r Hrun) as (t_loop & c & nets & _ & _ & Hw & Hc).
  destruct c as [input | v | e]; [| contradiction |].
  - destruct Hc as (_ & _ & response & -> & _). cbn.
    apply warned_app; [exact Hw | apply submission_views].
  - destruct Hc as (-> & _). cbn. apply warned_app; [exact Hw | exact I].
Qed.

Lemma run_lookups t r :
  run t r ->
  exists k,
    lookups t =
      map (fun l => GetModelDetails l CIVITAI_MODELS CIVITAI_VERSIONS)
          (firstn k lora_list) /\
    (submitted t <> [] -> k = List.length lora_list).
Proof.
  intros Hrun.
  destruct (run_loop t r Hrun) as (t_loop & c & nets & Hev & (k & Hk & Hlen) & _ & Hc).
  exists k. destruct c as [input | v | e]; [| contradiction |].
  - destruct Hc as (_ & _ & response & -> & _).
    change (generating :: ?l) with ([generating] ++ l).
    rewrite !lookups_app. destruct (submission_views input response) as (_ & -> & _).
    cbn. rewrite app_nil_r. split; [exact Hk|]. intros _. eapply Hlen. reflexivity.
  - destruct Hc as (-> & _).
    change (generating :: ?l) with ([generating] ++ l).
    rewrite !lookups_app, !submitted_app, (lora_event_submitted _ _ Hev).
    cbn. rewrite app_nil_r. split; [exact Hk|]. intros H; contradiction H; reflexivity.
Qed.

Lemma lora_generate_event id t :
  Forall (lora_event id) t -> Forall (generate_event id) t.
Proof.
  apply Forall_impl. intros ev; destruct ev as [[] | | []]; cbn; auto; contradiction.
Qed.

Lemma run_events t r : run t r -> Forall (generate_event CIVITAI_VERSIONS) t.
Proof.
  intros Hrun.
  destruct (run_loop t r Hrun) as (t_loop & c & nets & Hev & _ & _ & Hc).
  apply lora_generate_event in Hev.
  destruct c as [input | v | e]; [| contradiction |].
  - destruct Hc as (_ & _ & response & -> & _).
    constructor; [intros x Hx; inversion Hx|].
    apply Forall_app. split; [exact Hev|].
    destruct response; repeat constructor; intros x Hx; inversion Hx.
  - destruct Hc as (-> & _).
    constructor; [intros x Hx; inversion Hx|].
    apply Forall_app. split; [exact Hev|].
    repeat constructor; intros x Hx; inversion Hx.
Qed.

(** What [generate_image] returns is what the endpoint answered. *)
Lemma run_result t r :
  run t r ->
  exists v, r = Value v /\
    forall input_data response,
      In (Called (ImageCreate input_data) response) t ->
      v = submission_result response.
Proof.
  intros Hrun.
  destruct (run_loop t r Hrun) as (t_loop & c & nets & Hev & _ & _ & Hc).
  assert (Hno : forall input_data response,
             ~ In (Called (ImageCreate input_data) response) t_loop).
  { intros input_data response Hin.
    rewrite Forall_forall in Hev. exact (Hev _ Hin). }
  destruct c as [input | v | e]; [| contradiction |].
  - destruct Hc as (_ & _ & response & -> & ->).
    eexists. split; [reflexivity|]. intros input_data response' [Hin | Hin];
      [discriminate|].
    apply in_app_or in Hin as [Hin | Hin]; [destruct (Hno _ _ Hin)|].
    destruct response; cbn in Hin;
      repeat (destruct Hin as [Hin | Hin]; [try discriminate; inversion Hin; reflexivity|]);
      destruct Hin.
  - destruct Hc as (-> & ->).
    eexists. split; [reflexivity|]. intros input_data response [Hin | Hin];
      [discriminate|].
    apply in_app_or in Hin as [Hin | Hin]; [destruct (Hno _ _ Hin)|].
    destruct Hin as [Hin | []]. discriminate.
Qed.

End GenerateImage.

(** ** The LoRA resolver and the request submitter: properties *)

Lemma example_generate_runs lora_list script :
  runs (generate_image models_url versions_url checkpoint_air
                       (PStr "a cat") (PStr "") (PInt 1024) (PInt 1024)
                       (PStr "EulerA") (PInt 20) (PFloat 7%float) lora_list)
       (trace_of (example_generate lora_list) script)
       (snd (exec (example_generate lora_list) script)).
Proof. apply (exec_sound (example_generate lora_list)). Qed.

(** C5.  In every run of [generate_image]: a lookup that returns a record
    whose type tag is not "LORA" is followed by the error of
    [get_lora_details] and by the loop's message of severity "warning" for
    that LoRA identifier, and so is a lookup that raises; every entry of the
    [additionalNetworks] of a submitted request stems from a looked-up
    record tagged "LORA"; and [get_lora_details] never raises. *)
Theorem lora_filtering :
  forall CIVITAI_MODELS CIVITAI_VERSIONS air pos_prompt neg_prompt width height
         scheduler steps cfg_scale lora_list t r,
    runs (generate_image CIVITAI_MODELS CIVITAI_VERSIONS air pos_prompt neg_prompt
                         width height scheduler steps cfg_scale lora_list) t r ->
    (forall before lora_id record after,
       t = before ++ Called (GetModelDetails lora_id CIVITAI_MODELS CIVITAI_VERSIONS)
                            (Value record) :: after ->
       type_tag_is_lora record = false ->
       exists msg after',
         after = Said (Feedback msg "error") ::
                 Said (Feedback [Lit "Failed to get details for LoRA ID: "; Fmt lora_id]
                                "warning") :: after') /\
    (forall before lora_id e after,
       t = before ++ Called (GetModelDetails lora_id CIVITAI_MODELS CIVITAI_VERSIONS)
                            (Raises e) :: after ->
       exists msg after',
         after = Said (Feedback msg "error") ::
                 Said (Feedback [Lit "Failed to get details for LoRA ID: "; Fmt lora_id]
                                "warning") :: after') /\
    (forall input_data nets key v,
       In input_data (submitted t) ->
       py_getitem input_data (PStr "additionalNetworks") = Value (PDict nets) ->
       In (key, v) nets ->
       exists lora_id record,
         In (Called (GetModelDetails lora_id CIVITAI_MODELS CIVITAI_VERSIONS)
                    (Value record)) t /\
         type_tag_is_lora record = true /\
         retained record key) /\
    (forall a b c t' r',
       runs (get_lora_details a b c) t' r' -> exists v, r' = Value v).
Proof.
  intros M V air pos neg w h sch st cfg loras t r Hruns.
  apply generate_image_spec in Hruns.
  pose proof (run_warned _ _ _ _ _ _ _ _ _ _ _ _ _ Hruns) as Hw.
  split; [|split; [|split]].
  - intros before lora_id record after -> Htag.
    eapply warned_at; [exact Hw|]. cbn. rewrite Htag. apply andb_false_r.
  - intros before lora_id e after ->.
    eapply warned_at; [exact Hw|]. reflexivity.
  - intros input_data nets key v Hin Hget Hkey.
    destruct (run_submitted _ _ _ _ _ _ _ _ _ _ _ _ _ _ Hruns Hin)
      as (nets0 & -> & Hprov).
    destruct loras as [| lora_id items]; [discriminate Hget|].
    cbn in Hget. inversion Hget; subst nets0.
    destruct (Hprov key v Hkey) as (_ & l & record & _ & Hcall & Hret).
    exists l, record. split; [exact Hcall|]. split; [|exact Hret].
    destruct Hret as (Htag & _). cbn in Htag.
    apply andb_prop in Htag as [_ Htag]. exact Htag.
  - intros a b c t' r' H'. apply get_lora_details_spec in H' as (o & Ho).
    destruct (tagged_lora o).
    + destruct Ho as (record & _ & _ & ->). eauto.
    + destruct Ho as (msg & _ & _ & ->). eauto.
Qed.

(** The run of [two_lookups_script]: the checkpoint looked up for LoRA 9
    is warned about and left out. *)
Lemma lora_filtering_witness :
  let t := trace_of (example_generate [PInt 7; PInt 9]) two_lookups_script in
  (forall before lora_id record after,
     t = before ++ Called (GetModelDetails lora_id models_url versions_url)
                          (Value record) :: after ->
     type_tag_is_lora record = false ->
     exists msg after',
       after = Said (Feedback msg "error") ::
               Said (Feedback [Lit "Failed to get details for LoRA ID: "; Fmt lora_id]
                              "warning") :: after') /\
  (forall before lora_id e after,
     t = before ++ Called (GetModelDetails lora_id models_url versions_url)
                          (Raises e) :: after ->
     exists msg after',
       after = Said (Feedback msg "error") ::
               Said (Feedback [Lit "Failed to get details for LoRA ID: "; Fmt lora_id]
                              "warning") :: after') /\
  (forall input_data nets key v,
     In input_data (submitted t) ->
     py_getitem input_data (PStr "additionalNetworks") = Value (PDict nets) ->
     In (key, v) nets ->
     exists lora_id record,
       In (Called (GetModelDetails lora_id models_url versions_url)
                  (Value record)) t /\
       type_tag_is_lora record = true /\
       retained record key) /\
  (forall a b c t' r',
     runs (get_lora_details a b c) t' r' -> exists v, r' = Value v).
Proof.
  exact (lora_filtering _ _ _ _ _ _ _ _ _ _ _ _ _
           (example_generate_runs [PInt 7; PInt 9] two_lookups_script)).
Defined.

(** The same run, evaluated: one network is submitted, the LoRA's. *)
Example two_lookups_submitted :
  submitted (trace_of (example_generate [PInt 7; PInt 9]) two_lookups_script)
  = [ PDict [ (PStr "model", checkpoint_air);
              (PStr "params",
               generation_params (PStr "a cat") (PStr "") (PStr "EulerA") (PInt 20)
                                 (PFloat 7%float) (PInt 1024) (PInt 1024));
              (PStr "additionalNetworks", PDict [(lora_air, lora_entry)]) ] ].
Proof. vm_compute. reflexivity. Qed.

(** C6, as the code has it.  A request submitted by [generate_image] has
    the model reference and exactly the nine parameters (the prompts, the
    scheduler, the steps, the CFG scale, the width, the height, seed -1 and
    clipSkip 1); it carries [additionalNetworks] exactly when the LoRA list
    is not empty (the mapping itself may then be empty); and every entry of
    the mapping maps the artifact reference of the first version of a
    looked-up LoRA record to [{type: Lora, strength: 1.0}]. *)
Theorem request_shape :
  forall CIVITAI_MODELS CIVITAI_VERSIONS air pos_prompt neg_prompt width height
         scheduler steps cfg_scale lora_list t r input_data,
    runs (generate_image CIVITAI_MODELS CIVITAI_VERSIONS air pos_prompt neg_prompt
                         width height scheduler steps cfg_scale lora_list) t r ->
    In input_data (submitted t) ->
    exists nets,
      input_data =
        PDict ([ (PStr "model", air);
                 (PStr "params",
                  PDict [ (PStr "prompt", pos_prompt);
                          (PStr "negativePrompt", neg_prompt);
                          (PStr "scheduler", scheduler);
                          (PStr "steps", steps);
                          (PStr "cfgScale", cfg_scale);
                          (PStr "width", width);
                          (PStr "height", height);
                          (PStr "seed", PInt (-1));
                          (PStr "clipSkip", PInt 1) ]) ]
               ++ match lora_list with
                  | [] => []
                  | _ => [(PStr "additionalNetworks", PDict nets)]
                  end) /\
      forall key v,
        In (key, v) nets ->
        v = PDict [(PStr "type", PStr "Lora"); (PStr "strength", PFloat 1%float)] /\
        exists lora_id record versions first,
          In lora_id lora_list /\
          In (Called (GetModelDetails lora_id CIVITAI_MODELS CIVITAI_VERSIONS)
                     (Value record)) t /\
          type_tag_is_lora record = true /\
          py_getitem record (PStr "versions") = Value versions /\
          py_getitem versions (PInt 0) = Value first /\
          py_get first "air" = Value key.
Proof.
  intros M V air pos neg w h sch st cfg loras t r input_data Hruns Hin.
  apply generate_image_spec in Hruns.
  destruct (run_submitted _ _ _ _ _ _ _ _ _ _ _ _ _ _ Hruns Hin)
    as (nets & -> & Hprov).
  exists nets. split.
  - destruct loras; reflexivity.
  - intros key v Hkey.
    destruct (Hprov key v Hkey)
      as (-> & l & record & Hl & Hcall & Htag & vs & first & Hvs & _ & Hfirst & Hair & _).
    split; [reflexivity|]. exists l, record, vs, first.
    cbn in Htag. apply andb_prop in Htag as [_ Htag]. auto 10.
Qed.

Lemma request_shape_witness :
  let t := trace_of (example_generate [PInt 7; PInt 9]) two_lookups_script in
  let input_data :=
    PDict [ (PStr "model", checkpoint_air);
            (PStr "params",
             generation_params (PStr "a cat") (PStr "") (PStr "EulerA") (PInt 20)
                               (PFloat 7%float) (PInt 1024) (PInt 1024));
            (PStr "additionalNetworks", PDict [(lora_air, lora_entry)]) ] in
  In input_data (submitted t) /\
  exists nets,
    input_data =
      PDict ([ (PStr "model", checkpoint_air);
               (PStr "params",
                PDict [ (PStr "prompt", PStr "a cat");
                        (PStr "negativePrompt", PStr "");
                        (PStr "scheduler", PStr "EulerA");
                        (PStr "steps", PInt 20);
                        (PStr "cfgScale", PFloat 7%float);
                        (PStr "width", PInt 1024);
                        (PStr "height", PInt 1024);
                        (PStr "seed", PInt (-1));
                        (PStr "clipSkip", PInt 1) ]) ]
             ++ [(PStr "additionalNetworks", PDict nets)]) /\
    forall key v,
      In (key, v) nets ->
      v = PDict [(PStr "type", PStr "Lora"); (PStr "strength", PFloat 1%float)] /\
      exists lora_id record versions first,
        In lora_id [PInt 7; PInt 9] /\
        In (Called (GetModelDetails lora_id models_url versions_url)
                   (Value record)) t /\
        type_tag_is_lora record = true /\
        py_getitem record (PStr "versions") = Value versions /\
        py_getitem versions (PInt 0) = Value first /\
        py_get first "air" = Value key.
Proof.
  refine (let H := or_introl eq_refl in
          conj H (request_shape _ _ _ _ _ _ _ _ _ _ _ _ _ _
                    (example_generate_runs [PInt 7; PInt 9] two_lookups_script) H)).
Defined.

(** C6, as the spec states it, fails: with one LoRA id whose lookup finds
    nothing, the request is submitted with an empty [additionalNetworks]
    merged into it. *)
Lemma empty_networks_are_submitted :
  exists t r input_data,
    runs (generate_image models_url versions_url checkpoint_air
                         (PStr "a cat") (PStr "") (PInt 1024) (PInt 1024)
                         (PStr "EulerA") (PInt 20) (PFloat 7%float) [PInt 7]) t r /\
    In input_data (submitted t) /\
    py_getitem input_data (PStr "additionalNetworks") = Value (PDict []).
Proof.
  eexists _, _, _. split; [apply (example_generate_runs [PInt 7] failed_lookup_script)|].
  split; [left; reflexivity | reflexivity].
Qed.



(** The lookups of that run, evaluated: the id looked up is the versions
    URL, both times. *)
Example two_lookups_made :
  lookups (trace_of (example_generate [PInt 7; PInt 9]) two_lookups_script)
  = [ GetModelDetails (PInt 7) models_url versions_url;
      GetModelDetails (PInt 9) models_url versions_url ].
Proof. vm_compute. reflexivity. Qed.

(** ** The job reporter: properties *)

Lemma fetch_job_details_spec job_id user_id detailed :
  always (fetch_job_details job_id user_id detailed) (fun t r =>
    r = Value PNone /\
    if truthy job_id then
      exists response,
        t = Called (JobsGet job_id) response ::
            job_report "Job details:" [Lit "No job details found."]
                       "Error fetching job details: " response
    else if truthy user_id then
      exists response,
        t = Called (JobsQuery detailed
                      (PDict [(PStr "properties", PDict [(PStr "userId", user_id)])]))
                   response ::
            job_report "Jobs:" [Lit "No jobs found for the given user ID."]
                       "Error fetching job details: " response
    else
      t = [Said (Feedback [Lit "Please provide either a job ID or a user ID."]
                          "error")]).
Proof.
  unfold fetch_job_details. unfold_ops. cbn.
  destruct (truthy job_id); [| destruct (truthy user_id)]; cbn.
  all: repeat step; (split; [reflexivity|]).
  all: try reflexivity.
  all: match goal with |- context [Called _ ?o] => exists o end;
    unfold job_report;
    repeat match goal with H : truthy _ = _ |- _ => rewrite H end; reflexivity.
Qed.

Lemma cancel_job_spec job_id :
  always (cancel_job job_id) (fun t r =>
    r = Value PNone /\
    exists response,
      t = Called (JobsCancel job_id) response ::
          match response with
          | Value answer =>
              if truthy answer
              then [Said (ConsolePrint "Job cancellation response:" "bold");
                    Said (PrintJson answer)]
              else [Said (Feedback [Lit "Failed to cancel the job."] "error")]
          | Raises e =>
              [Said (Feedback [Lit "Error cancelling job: "; FmtExn e] "error")]
          end).
Proof.
  unfold cancel_job. unfold_ops. cbn.
  repeat step; (split; [reflexivity|]).
  all: match goal with |- context [Called _ ?o] => exists o end;
    repeat match goal with H : truthy _ = _ |- _ => rewrite H end; reflexivity.
Qed.

(** C7.  [fetch_job_details]: given a job identifier it asks the remote
    client for that job, and for nothing else; given no job identifier but
    a user identifier it queries the jobs with that [userId], passing
    [detailed] on; given neither it reports "Please provide either a job ID
    or a user ID." with severity "error" and calls nothing. *)
Theorem job_lookup_dispatch :
  forall job_id user_id detailed t r,
    runs (fetch_job_details job_id user_id detailed) t r ->
    (truthy job_id = true ->
     calls t = [JobsGet job_id] /\
     exists response,
       t = Called (JobsGet job_id) response ::
           job_report "Job details:" [Lit "No job details found."]
                      "Error fetching job details: " response) /\
    (truthy job_id = false -> truthy user_id = true ->
     let query := PDict [(PStr "properties", PDict [(PStr "userId", user_id)])] in
     calls t = [JobsQuery detailed query] /\
     exists response,
       t = Called (JobsQuery detailed query) response ::
           job_report "Jobs:" [Lit "No jobs found for the given user ID."]
                      "Error fetching job details: " response) /\
    (truthy job_id = false -> truthy user_id = false ->
     t = [Said (Feedback [Lit "Please provide either a job ID or a user ID."]
                         "error")] /\
     calls t = []).
Proof.
  intros job_id user_id detailed t r Hruns.
  apply fetch_job_details_spec in Hruns as [_ H].
  assert (Hreport : forall heading nothing failure response,
             calls (job_report heading nothing failure response) = []).
  { intros ? ? ? [found | e]; cbn; [destruct (truthy found)|]; reflexivity. }
  split; [|split].
  - intros Hj. rewrite Hj in H. destruct H as (response & ->).
    split; [|eauto]. change (Called ?c ?o :: ?l) with ([Called c o] ++ l).
    rewrite calls_app, Hreport. reflexivity.
  - intros Hj Hu. rewrite Hj, Hu in H. destruct H as (response & ->).
    split; [|eauto]. change (Called ?c ?o :: ?l) with ([Called c o] ++ l).
    rewrite calls_app, Hreport. reflexivity.
  - intros Hj Hu. rewrite Hj, Hu in H. subst t. split; reflexivity.
Qed.

Lemma job_lookup_dispatch_witness :
  let t := trace_of (fetch_job_details (PStr "abc123") PNone (PBool false))
                    [Result (Value job_status)] in
  (truthy (PStr "abc123") = true ->
   calls t = [JobsGet (PStr "abc123")] /\
   exists response,
     t = Called (JobsGet (PStr "abc123")) response ::
         job_report "Job details:" [Lit "No job details found."]
                    "Error fetching job details: " response) /\
  (truthy (PStr "abc123") = false -> truthy PNone = true ->
   let query := PDict [(PStr "properties", PDict [(PStr "userId", PNone)])] in
   calls t = [JobsQuery (PBool false) query] /\
   exists response,
     t = Called (JobsQuery (PBool false) query) response ::
         job_report "Jobs:" [Lit "No jobs found for the given user ID."]
                    "Error fetching job details: " response) /\
  (truthy (PStr "abc123") = false -> truthy PNone = false ->
   t = [Said (Feedback [Lit "Please provide either a job ID or a user ID."]
                       "error")] /\
   calls t = []).
Proof.
  exact (job_lookup_dispatch _ _ _ _ _
           (exec_sound (fetch_job_details (PStr "abc123") PNone (PBool false))
                       [Result (Value job_status)])).
Defined.

(** The three ways in, evaluated. *)
Example lookup_by_job_id :
  trace_of (fetch_job_details (PStr "abc123") (PStr "u42") (PBool true))
           [Result (Value job_status)]
  = [ Called (JobsGet (PStr "abc123")) (Value job_status);
      Said (ConsolePrint "Job details:" "bold");
      Said (PrintJson job_status) ].
Proof. vm_compute. reflexivity. Qed.

Example lookup_by_user_id :
  trace_of (fetch_job_details (PStr "") (PStr "u42") (PBool true))
           [Result (Value (PList []))]
  = [ Called (JobsQuery (PBool true)
                (PDict [(PStr "properties", PDict [(PStr "userId", PStr "u42")])]))
             (Value (PList []));
      Said (Feedback [Lit "No jobs found for the given user ID."] "warning") ].
Proof. vm_compute. reflexivity. Qed.

Example lookup_by_nothing :
  exec (fetch_job_details PNone PNone (PBool false)) []
  = ([Said (Feedback [Lit "Please provide either a job ID or a user ID."] "error")],
     Value PNone).
Proof. vm_compute. reflexivity. Qed.

(** C8.  Both entry points of the job reporter return [None] in every
    run, so nothing propagates to the caller; and when the remote client
    raises, the run ends there with the exception turned into a message of
    severity "error". *)
Theorem job_reporter_catches :
  (forall job_id user_id detailed t r,
     runs (fetch_job_details job_id user_id detailed) t r ->
     r = Value PNone /\
     forall c e, In (Called c (Raises e)) t ->
       t = [Called c (Raises e);
            Said (Feedback [Lit "Error fetching job details: "; FmtExn e] "error")]) /\
  (forall job_id t r,
     runs (cancel_job job_id) t r ->
     r = Value PNone /\
     forall c e, In (Called c (Raises e)) t ->
       t = [Called c (Raises e);
            Said (Feedback [Lit "Error cancelling job: "; FmtExn e] "error")]).
Proof.
  assert (Hreport : forall heading nothing failure response ev,
             In ev (job_report heading nothing failure response) ->
             match ev with Called _ _ => False | _ => True end).
  { intros ? ? ? [found | e] ev; cbn; [destruct (truthy found)|]; cbn;
      intuition (subst; exact I). }
  split.
  - intros job_id user_id detailed t r Hruns.
    apply fetch_job_details_spec in Hruns as [-> H]. split; [reflexivity|].
    intros c e Hin.
    destruct (truthy job_id); [| destruct (truthy user_id)].
    + destruct H as (response & ->). destruct Hin as [Hin | Hin].
      * inversion Hin; subst. reflexivity.
      * destruct (Hreport _ _ _ _ _ Hin).
    + destruct H as (response & ->). destruct Hin as [Hin | Hin].
      * inversion Hin; subst. reflexivity.
      * destruct (Hreport _ _ _ _ _ Hin).
    + subst t. destruct Hin as [Hin | []]. discriminate.
  - intros job_id t r Hruns.
    apply cancel_job_spec in Hruns as [-> (response & ->)]. split; [reflexivity|].
    intros c e [Hin | Hin].
    + inversion Hin; subst. reflexivity.
    + destruct response as [answer | e']; [destruct (truthy answer)|]; cbn in Hin;
        intuition discriminate.
Qed.

Lemma job_reporter_catches_witness :
  (let t := trace_of (fetch_job_details (PStr "abc123") PNone (PBool false))
                     [Result (Raises service_unavailable)] in
   t = [Called (JobsGet (PStr "abc123")) (Raises service_unavailable);
        Said (Feedback [Lit "Error fetching job details: ";
                        FmtExn service_unavailable] "error")]) /\
  (let t := trace_of (cancel_job (PStr "abc123"))
                     [Result (Raises service_unavailable)] in
   t = [Called (JobsCancel (PStr "abc123")) (Raises service_unavailable);
        Said (Feedback [Lit "Error cancelling job: ";
                        FmtExn service_unavailable] "error")]).
Proof.
  split.
  - exact (proj2 (proj1 job_reporter_catches _ _ _ _ _
             (exec_sound (fetch_job_details (PStr "abc123") PNone (PBool false))
                         [Result (Raises service_unavailable)]))
             _ _ (or_introl eq_refl)).
  - exact (proj2 (proj2 job_reporter_catches _ _ _
             (exec_sound (cancel_job (PStr "abc123"))
                         [Result (Raises service_unavailable)]))
             _ _ (or_introl eq_refl)).
Defined.

(** ** Parsing the operator's answers *)

Lemma split_on_nonempty sep s : split_on sep s <> [].
Proof.
  destruct s as [| c s]; cbn; [discriminate|].
  destruct (Ascii.eqb c sep); [discriminate|].
  destruct (split_on sep s); discriminate.
Qed.

Lemma split_on_one sep s b : split_on sep s = [b] -> s = b.
Proof.
  revert b. induction s as [| c s IH]; cbn; intros b H.
  - inversion H. reflexivity.
  - destruct (Ascii.eqb c sep).
    + inversion H as [[Hb Hs]]. destruct (split_on_nonempty _ _ Hs).
    + destruct (split_on sep s) as [| hd tl] eqn:E;
        [destruct (split_on_nonempty _ _ E)|].
      inversion H; subst. rewrite (IH hd eq_refl). reflexivity.
Qed.

Lemma split_on_two sep s a b :
  split_on sep s = [a; b] -> s = (a ++ String sep b)%string.
Proof.
  revert a. induction s as [| c s IH]; cbn; intros a H; [discriminate|].
  destruct (Ascii.eqb c sep) eqn:Ec.
  - inversion H as [[Ha Hs]]. apply Ascii.eqb_eq in Ec. subst c.
    rewrite (split_on_one _ _ _ Hs). reflexivity.
  - destruct (split_on sep s) as [| hd tl] eqn:E;
      [destruct (split_on_nonempty _ _ E)|].
    inversion H; subst. rewrite (IH hd eq_refl). reflexivity.
Qed.

Section Parsing.

Variable int_of_str : string -> option Z.
Variable float_of_str : string -> option float.

Lemma unpack_two_ints_ok parts width height :
  unpack_two_ints int_of_str parts = Value (width, height) ->
  exists a b,
    parts = [a; b] /\ int_of_str a = Some width /\ int_of_str b = Some height.
Proof.
  unfold unpack_two_ints.
  destruct parts as [| a [| b [| c rest]]]; try discriminate;
    destruct (int_of_str a) eqn:Ea; try discriminate;
    destruct (int_of_str b) eqn:Eb; try discriminate.
  - intros H; inversion H; subst. eauto.
  - destruct (int_of_str c); discriminate.
Qed.

Lemma unpack_two_ints_raises parts e :
  unpack_two_ints int_of_str parts = Raises e -> is_ValueError e = true.
Proof.
  unfold unpack_two_ints.
  destruct parts as [| a [| b [| c rest]]];
    repeat match goal with
           | |- context [int_of_str ?x] => destruct (int_of_str x)
           end;
    intros H; inversion H; reflexivity.
Qed.

Lemma parsed_size s parts width height :
  split_x (Some s) = Value parts ->
  unpack_two_ints int_of_str parts = Value (width, height) ->
  unpack_two_ints int_of_str (split_on "x" s) = Value (width, height) /\
  int_x_int int_of_str s.
Proof.
  intros Hs Hu. inversion Hs; subst. split; [exact Hu|].
  apply unpack_two_ints_ok in Hu as (a & b & Hab & Ha & Hb).
  exists a, b, width, height. split; [apply split_on_two, Hab | auto].
Qed.

Lemma py_int_ok a n :
  py_int int_of_str a = Value n -> exists s, a = Some s /\ int_of_str s = Some n.
Proof.
  destruct a as [s|]; cbn; [|discriminate].
  destruct (int_of_str s) eqn:E; intros H; inversion H; subst. eauto.
Qed.

Lemma py_int_raises s e :
  py_int int_of_str (Some s) = Raises e -> is_ValueError e = true.
Proof. cbn. destruct (int_of_str s); intros H; inversion H. reflexivity. Qed.

Lemma py_float_ok a x :
  py_float float_of_str a = Value x ->
  exists s, a = Some s /\ float_of_str s = Some x.
Proof.
  destruct a as [s|]; cbn; [|discriminate].
  destruct (float_of_str s) eqn:E; intros H; inversion H; subst. eauto.
Qed.

End Parsing.

Lemma split_x_ok a parts :
  split_x a = Value parts -> exists s, a = Some s /\ parts = split_on "x" s.
Proof. destruct a; cbn; intros H; inversion H. eauto. Qed.

Lemma truthy_answer a :
  truthy (answer_value a) = true -> exists s, a = Some s /\ s <> "".
Proof.
  destruct a as [s|]; cbn; [|discriminate]. intros H. exists s. split; [reflexivity|].
  intros ->. discriminate.
Qed.

Lemma submitted_In t input_data :
  In input_data (submitted t) <->
  exists response, In (Called (ImageCreate input_data) response) t.
Proof.
  induction t as [| ev t IH].
  - cbn. split; [intros [] | intros (? & [])].
  - change (ev :: t) with ([ev] ++ t). rewrite submitted_app, in_app_iff, IH.
    split.
    + intros [H | (response & H)].
      * destruct ev as [o | ? ? ? | [] response]; cbn in H; try contradiction.
        destruct H as [-> | []]. exists response. left. reflexivity.
      * exists response. right. exact H.
    + intros (response & [H | H]).
      * subst ev. left. left. reflexivity.
      * right. eauto.
Qed.

Lemma dict_find_contains entries key :
  existsb (fun kv => str_eq (fst kv) key) entries = true ->
  exists v, dict_find entries (PStr key) = Some v.
Proof.
  induction entries as [| [k w] entries IH]; cbn; [discriminate|].
  unfold str_eq at 1. cbn [fst]. destruct (key_eqb k (PStr key)); cbn; eauto.
Qed.

Lemma contains_getitem_raises x key e :
  py_contains x key = Value true ->
  py_getitem x (PStr key) = Raises e ->
  class_of e = TypeError.
Proof.
  destruct x; cbn; try discriminate.
  - intros _ H. inversion H. reflexivity.
  - intros _ H. inversion H. reflexivity.
  - intros Hc. inversion Hc as [Hc'].
    destruct (dict_find_contains _ _ Hc') as (v & ->). discriminate.
Qed.

(** ** The interactive collector: properties *)

Lemma ends_with_refl s : ends_with s s.
Proof. exists []. reflexivity. Qed.

Lemma ends_with_cons x l s : ends_with l s -> ends_with (x :: l) s.
Proof. intros [b ->]. exists (x :: b). reflexivity. Qed.

Lemma ends_with_app l1 l2 s : ends_with l2 s -> ends_with (l1 ++ l2) s.
Proof. intros [b ->]. exists (l1 ++ b). apply app_assoc. Qed.

Ltac ends :=
  repeat first [ apply ends_with_refl | apply ends_with_app | apply ends_with_cons ].

Ltac find_in := repeat first [ left; reflexivity | right ].

(** Running [generate_image] inside the flow: its events and its result
    are those of its characterisation. *)
Ltac step_generate :=
  focus; eapply always_weaken; [apply generate_image_spec|]; cbn beta;
  let tg := fresh "tg" in
  let rg := fresh "rg" in
  let Hg := fresh "Hg" in
  let Hev := fresh "Hev" in
  let Hv := fresh "Hv" in
  let v := fresh "v" in
  intros tg rg Hg;
  pose proof (run_events _ _ _ _ _ _ _ _ _ _ _ _ _ Hg) as Hev;
  destruct (run_result _ _ _ _ _ _ _ _ _ _ _ _ _ Hg) as (v & -> & Hv);
  cbn.

Arguments submitted : simpl never.
Arguments remote_calls : simpl never.
Arguments network_calls : simpl never.
Arguments lookups : simpl never.
Arguments calls : simpl never.

(** The whole flow, path by path. *)
Ltac explore :=
  unfold create_image_cli; unfold_ops; cbn;
  repeat step;
  try (step_generate; repeat step).

(** Where in the trace an event can be. *)
Ltac in_cases H :=
  repeat first
    [ apply in_app_or in H; destruct H as [H | H]
    | destruct H as [H | H]; [ try discriminate H | ]
    | lazymatch type of H with
      | In _ [] => destruct H
      | False => destruct H
      end ];
  try match goal with
      | Hev : Forall (generate_event _) ?tg |- _ =>
          match type of H with
          | In _ tg =>
              solve [ exfalso; apply (proj1 (Forall_forall _ _) Hev) in H;
                      cbn in H; first [ exact H | discriminate H ] ]
          end
      end.

Section Collector.

Variable int_of_str : string -> option Z.
Variable float_of_str : string -> option float.

Let cli := create_image_cli int_of_str float_of_str.

(** C4.  When the positive prompt is answered with the empty string (or
    not at all), the flow reports "Positive prompt is required." with
    severity "error" and ends there, returning [None]; the remote client is
    never called. *)
Theorem empty_prompt_aborts :
  forall CIVITAI_MODELS CIVITAI_VERSIONS requested_model lora_list t r answer,
    runs (cli CIVITAI_MODELS CIVITAI_VERSIONS requested_model lora_list) t r ->
    In (positive_prompt (Value answer)) t ->
    answer = Some "" \/ answer = None ->
    ends_with t [ positive_prompt (Value answer);
                  Said (Feedback [Lit "Positive prompt is required."] "error") ] /\
    remote_calls t = [] /\
    r = Value PNone.
Proof.
  intros M V id loras t r answer Hruns. revert answer. revert t r Hruns.
  change (always (cli M V id loras) (fun t r =>
    forall answer, In (positive_prompt (Value answer)) t ->
      answer = Some "" \/ answer = None ->
      ends_with t [ positive_prompt (Value answer);
                    Said (Feedback [Lit "Positive prompt is required."] "error") ] /\
      remote_calls t = [] /\ r = Value PNone)).
  unfold cli, positive_prompt. explore.
  all: intros answer Hin Hempty; in_cases Hin.
  all: inversion Hin; subst.
  all: try (destruct Hempty; subst; discriminate).
  all: split; [ends | split; reflexivity].
Qed.

(** C2, as the code has it.  When the width-height prompt is answered with
    a string that is not of the form [<int>x<int>], the flow reports
    "Invalid width x height format..." with severity "error" and ends
    there, returning [None]; no call goes to the remote client, and the one
    network call of the run is the metadata fetch for the requested model,
    made before any prompt. *)
Theorem malformed_size_aborts :
  forall CIVITAI_MODELS CIVITAI_VERSIONS requested_model lora_list t r size,
    runs (cli CIVITAI_MODELS CIVITAI_VERSIONS requested_model lora_list) t r ->
    In (size_prompt (Value (Some size))) t ->
    ~ int_x_int int_of_str size ->
    ends_with t [size_prompt (Value (Some size)); invalid_size] /\
    r = Value PNone /\
    network_calls t =
      [GetModelDetails CIVITAI_MODELS CIVITAI_VERSIONS requested_model] /\
    remote_calls t = [].
Proof.
  intros M V id loras t r size Hruns. revert size. revert t r Hruns.
  change (always (cli M V id loras) (fun t r =>
    forall size, In (size_prompt (Value (Some size))) t ->
      ~ int_x_int int_of_str size ->
      ends_with t [size_prompt (Value (Some size)); invalid_size] /\
      r = Value PNone /\
      network_calls t = [GetModelDetails M V id] /\
      remote_calls t = [])).
  unfold cli, size_prompt, invalid_size. explore.
  all: intros size Hin Hbad; in_cases Hin.
  all: inversion Hin; subst.
  all: try (exfalso; apply Hbad;
            eapply parsed_size; eassumption).
  all: try match goal with
           | H : unpack_two_ints _ _ = Raises ?e, H' : is_ValueError ?e = false |- _ =>
               apply unpack_two_ints_raises in H; congruence
           end.
  all: try discriminate.
  all: split; [ends | split; [reflexivity | split; reflexivity]].
Qed.

(** C1.  In every run of [create_image_cli], if [generate_image] is
    invoked (its announcement is in the trace) or a request is submitted,
    then the positive prompt was answered with a non-empty string, the
    width-height answer split on "x" into two strings that [int] converted,
    the steps answer was converted by [int] and the CFG answer by [float];
    and the parameters of every submitted request are these values. *)
Theorem submission_requires_valid_input :
  forall CIVITAI_MODELS CIVITAI_VERSIONS requested_model lora_list t r,
    runs (cli CIVITAI_MODELS CIVITAI_VERSIONS requested_model lora_list) t r ->
    In generating t \/ submitted t <> [] ->
    exists positive size width height steps n cfg x,
      In (positive_prompt (Value (Some positive))) t /\ positive <> "" /\
      In (size_prompt (Value (Some size))) t /\
      unpack_two_ints int_of_str (split_on "x" size) = Value (width, height) /\
      In (steps_prompt (Value (Some steps))) t /\ int_of_str steps = Some n /\
      In (cfg_prompt (Value (Some cfg))) t /\ float_of_str cfg = Some x /\
      forall input_data,
        In input_data (submitted t) ->
        exists neg_prompt scheduler,
          py_getitem input_data (PStr "params") =
            Value (PDict [ (PStr "prompt", PStr positive);
                           (PStr "negativePrompt", neg_prompt);
                           (PStr "scheduler", scheduler);
                           (PStr "steps", PInt n);
                           (PStr "cfgScale", PFloat x);
                           (PStr "width", PInt width);
                           (PStr "height", PInt height);
                           (PStr "seed", PInt (-1));
                           (PStr "clipSkip", PInt 1) ]).
Proof.
  intros M V id loras t r Hruns. revert t r Hruns.
  change (always (cli M V id loras) (fun t r =>
    In generating t \/ submitted t <> [] ->
    exists positive size width height steps n cfg x,
      In (positive_prompt (Value (Some positive))) t /\ positive <> "" /\
      In (size_prompt (Value (Some size))) t /\
      unpack_two_ints int_of_str (split_on "x" size) = Value (width, height) /\
      In (steps_prompt (Value (Some steps))) t /\ int_of_str steps = Some n /\
      In (cfg_prompt (Value (Some cfg))) t /\ float_of_str cfg = Some x /\
      forall input_data,
        In input_data (submitted t) ->
        exists neg_prompt scheduler,
          py_getitem input_data (PStr "params") =
            Value (PDict [ (PStr "prompt", PStr positive);
                           (PStr "negativePrompt", neg_prompt);
                           (PStr "scheduler", scheduler);
                           (PStr "steps", PInt n);
                           (PStr "cfgScale", PFloat x);
                           (PStr "width", PInt width);
                           (PStr "height", PInt height);
                           (PStr "seed", PInt (-1));
                           (PStr "clipSkip", PInt 1) ]))).
  unfold cli, positive_prompt, size_prompt, steps_prompt, cfg_prompt. explore.
  all: try (intros [Hin | Hsub];
            [ unfold generating in Hin; in_cases Hin; discriminate Hin
            | contradiction Hsub; reflexivity ]).
  all: intros _.
  all: repeat match goal with
         | H : truthy (answer_value _) = true |- _ =>
             apply truthy_answer in H as (? & -> & ?)
         | H : split_x _ = Value _ |- _ => apply split_x_ok in H as (? & -> & ->)
         | H : py_int _ _ = Value _ |- _ => apply py_int_ok in H as (? & -> & ?)
         | H : py_float _ _ = Value _ |- _ => apply py_float_ok in H as (? & -> & ?)
         end.
  all: do 8 eexists.
  all: repeat match goal with |- _ /\ _ => split end.
  all: try eassumption.
  all: try solve [cbn; find_in].
  all: intros input_data Hin.
  all: apply submitted_In in Hin as (o & Hin).
  all: in_cases Hin.
  all: assert (Hs : In input_data (submitted tg)) by (apply submitted_In; eauto).
  all: destruct (run_submitted _ _ _ _ _ _ _ _ _ _ _ _ _ _ Hg Hs) as (nets & -> & _).
  all: destruct loras; cbn; do 2 eexists; reflexivity.
Qed.

(** C3.  When the processed metadata has exactly one version, the only
    selection the operator is asked for is the scheduler (there is no
    "Select a version"), and the model reference of every submitted request
    is the ["air"] of that version.  The version is read right after the
    metadata calls: if it has no ["air"] the run ends there with the
    message of the generic handler; if it has one, the flow goes on to the
    positive prompt, and that ["air"] is the model of every request
    submitted later. *)
Theorem single_version_is_used :
  forall CIVITAI_MODELS CIVITAI_VERSIONS requested_model lora_list t r
         raw_model processed_model version,
    runs (cli CIVITAI_MODELS CIVITAI_VERSIONS requested_model lora_list) t r ->
    In (Called (ProcessModelData raw_model) (Value processed_model)) t ->
    py_getitem processed_model (PStr "versions") = Value (PList [version]) ->
    (forall message choices answer,
       In (Called (SelectAsk message choices) answer) t ->
       message = "Select scheduler:") /\
    (forall input_data,
       In input_data (submitted t) ->
       exists air,
         py_getitem version (PStr "air") = Value air /\
         py_getitem input_data (PStr "model") = Value air) /\
    (forall e,
       py_getitem version (PStr "air") = Raises e ->
       t = [ Called (GetModelDetails CIVITAI_MODELS CIVITAI_VERSIONS requested_model)
                    (Value raw_model);
             Called (ProcessModelData raw_model) (Value processed_model);
             unexpected e ]) /\
    (forall air,
       py_getitem version (PStr "air") = Value air ->
       (exists answer rest,
          t = Called (GetModelDetails CIVITAI_MODELS CIVITAI_VERSIONS requested_model)
                     (Value raw_model) ::
              Called (ProcessModelData raw_model) (Value processed_model) ::
              positive_prompt answer :: rest) /\
       (forall input_data,
          In input_data (submitted t) ->
          py_getitem input_data (PStr "model") = Value air)).
Proof.
  intros M V id loras t r raw processed version Hruns Hin Hvers.
  cut ((forall message choices answer,
          In (Called (SelectAsk message choices) answer) t ->
          message = "Select scheduler:") /\
       (forall input_data,
          In input_data (submitted t) ->
          exists air,
            py_getitem version (PStr "air") = Value air /\
            py_getitem input_data (PStr "model") = Value air) /\
       (forall e,
          py_getitem version (PStr "air") = Raises e ->
          t = [ Called (GetModelDetails M V id) (Value raw);
                Called (ProcessModelData raw) (Value processed);
                unexpected e ]) /\
       (forall air,
          py_getitem version (PStr "air") = Value air ->
          exists answer rest,
            t = Called (GetModelDetails M V id) (Value raw) ::
                Called (ProcessModelData raw) (Value processed) ::
                positive_prompt answer :: rest)).
  { intros (Hsel & Hsub & Hraise & Hgo).
    split; [exact Hsel|]. split; [exact Hsub|]. split; [exact Hraise|].
    intros air Hair. split; [exact (Hgo air Hair)|].
    intros input_data Hi. destruct (Hsub _ Hi) as (air' & Ha & Hm). congruence. }
  revert raw processed version Hin Hvers. revert t r Hruns.
  change (always (cli M V id loras) (fun t r =>
    forall raw processed version,
      In (Called (ProcessModelData raw) (Value processed)) t ->
      py_getitem processed (PStr "versions") = Value (PList [version]) ->
      (forall message choices answer,
         In (Called (SelectAsk message choices) answer) t ->
         message = "Select scheduler:") /\
      (forall input_data,
         In input_data (submitted t) ->
         exists air,
           py_getitem version (PStr "air") = Value air /\
           py_getitem input_data (PStr "model") = Value air) /\
      (forall e,
         py_getitem version (PStr "air") = Raises e ->
         t = [ Called (GetModelDetails M V id) (Value raw);
               Called (ProcessModelData raw) (Value processed);
               unexpected e ]) /\
      (forall air,
         py_getitem version (PStr "air") = Value air ->
         exists answer rest,
           t = Called (GetModelDetails M V id) (Value raw) ::
               Called (ProcessModelData raw) (Value processed) ::
               positive_prompt answer :: rest))).
  unfold cli, unexpected, positive_prompt. explore.
  all: intros raw processed version Hin Hvers; in_cases Hin.
  all: inversion Hin; subst; clear Hin.
  all: try (destruct processed; cbn in *; try discriminate;
            destruct entries; cbn in *; discriminate).
  all: repeat match goal with
         | Hv : py_getitem ?p (PStr "versions") = Value (PList [?ver]),
           H : py_getitem ?p (PStr "versions") = Value ?x |- _ =>
             rewrite Hv in H; inversion H; subst; clear H
         | Hv : py_getitem ?p (PStr "versions") = Value (PList [?ver]),
           H : py_getitem ?p (PStr "versions") = Raises _ |- _ =>
             rewrite Hv in H; discriminate H
         | H : context [truthy (PList [_])] |- _ => cbn in H
         | H : py_len (PList [_]) = _ |- _ =>
             cbn in H; inversion H; subst; clear H
         | H : py_getitem (PList [_]) (PInt 0) = _ |- _ =>
             cbn in H; inversion H; subst; clear H
         | H : (1 <? 1) = true |- _ => discriminate H
         end.
  all: (split; [| split; [| split]]).
  all: try (intros message choices answer Hsel; in_cases Hsel;
            inversion Hsel; reflexivity).
  all: try (intros e' He'; congruence).
  all: try (intros air' Hair'; do 2 eexists; reflexivity).
  all: intros input_data Hsub.
  all: apply submitted_In in Hsub as (o & Hsub); in_cases Hsub.
  all: assert (Hs : In input_data (submitted tg)) by (apply submitted_In; eauto).
  all: destruct (run_submitted _ _ _ _ _ _ _ _ _ _ _ _ _ _ Hg Hs) as (nets & -> & _).
  all: eexists; split; [eassumption|].
  all: destruct loras; reflexivity.
Qed.


(** C9.  When the endpoint answers the submission with a truthy response
    that contains "jobId", the call [fetch_job_details(response["jobId"])],
    with one argument for three parameters, raises [TypeError]: the run
    ends, right after the response is printed, with the message of the
    generic handler for a [TypeError]; no job is fetched, "Job details:" is
    never printed, and the flow returns [None]. *)
Theorem job_lookup_after_submission_raises :
  forall CIVITAI_MODELS CIVITAI_VERSIONS requested_model lora_list t r
         input_data response,
    runs (cli CIVITAI_MODELS CIVITAI_VERSIONS requested_model lora_list) t r ->
    In (Called (ImageCreate input_data) (Value response)) t ->
    truthy response = true ->
    py_contains response "jobId" = Value true ->
    (exists e,
       class_of e = TypeError /\
       ends_with t [Said (PrintJson response); unexpected e]) /\
    (forall job_id answer, ~ In (Called (JobsGet job_id) answer) t) /\
    (forall style, ~ In (Said (ConsolePrint "Job details:" style)) t) /\
    r = Value PNone.
Proof.
  intros M V id loras t r input_data response Hruns.
  revert input_data response. revert t r Hruns.
  change (always (cli M V id loras) (fun t r =>
    forall input_data response,
      In (Called (ImageCreate input_data) (Value response)) t ->
      truthy response = true ->
      py_contains response "jobId" = Value true ->
      (exists e,
         class_of e = TypeError /\
         ends_with t [Said (PrintJson response); unexpected e]) /\
      (forall job_id answer, ~ In (Called (JobsGet job_id) answer) t) /\
      (forall style, ~ In (Said (ConsolePrint "Job details:" style)) t) /\
      r = Value PNone)).
  unfold cli, unexpected. explore.
  all: intros input_data response Hin Htrue Hjob; in_cases Hin.
  all: apply Hv in Hin; cbn in Hin; subst.
  all: try congruence.
  all: split; [| split; [| split; [| reflexivity]]].
  all: try (intros ? ? Hno; in_cases Hno).
  all: try (intros ? Hno; in_cases Hno).
  all: eexists; (split; [| rewrite ?app_nil_r, <- ?app_assoc; cbn [app]; ends]).
  all: try reflexivity.
  all: eapply contains_getitem_raises; eassumption.
Qed.


End Collector.

Lemma empty_prompt_aborts_witness :
  let t := trace_of example_cli (found_model ++ [Answer (Value (Some ""))]) in
  ends_with t [ positive_prompt (Value (Some ""));
                Said (Feedback [Lit "Positive prompt is required."] "error") ] /\
  remote_calls t = [] /\
  snd (exec example_cli (found_model ++ [Answer (Value (Some ""))])) = Value PNone.
Proof.
  exact (empty_prompt_aborts _ _ _ _ _ _ _ _ _
           (exec_sound example_cli (found_model ++ [Answer (Value (Some ""))]))
           (or_intror (or_intror (or_introl eq_refl)))
           (or_introl eq_refl)).
Defined.

Example empty_prompt_run :
  exec example_cli (found_model ++ [Answer (Value (Some ""))])
  = ([ Called (GetModelDetails models_url versions_url (PInt 101))
              (Value checkpoint_record);
       Called (ProcessModelData checkpoint_record) (Value checkpoint_record);
       positive_prompt (Value (Some ""));
       Said (Feedback [Lit "Positive prompt is required."] "error") ],
     Value PNone).
Proof. vm_compute. reflexivity. Qed.

(** ** The interactive collector: examples *)

Lemma int_x_int_occurs int_of_str s :
  int_x_int int_of_str s -> occurs "x" s = true.
Proof.
  intros (a & b & _ & _ & -> & _). induction a as [| c a IH]; cbn.
  - reflexivity.
  - rewrite IH. apply orb_true_r.
Qed.

Lemma star_is_no_size : ~ int_x_int ascii_int "1024*1024".
Proof. intros H. apply int_x_int_occurs in H. discriminate H. Qed.

Example good_run :
  exec example_cli good_session
  = ([ Called (GetModelDetails models_url versions_url (PInt 101))
              (Value checkpoint_record);
       Called (ProcessModelData checkpoint_record) (Value checkpoint_record);
       positive_prompt (Value (Some "a cat"));
       Asked "Enter negative prompt (optional):" None (Value (Some ""));
       size_prompt (Value (Some "1024x1024"));
       Called (SelectAsk "Select scheduler:" scheduler_choices)
              (Value (PStr "EulerA"));
       steps_prompt (Value (Some "20"));
       cfg_prompt (Value (Some "7"));
       generating ]
     ++ submission
          (request_body checkpoint_air (PStr "a cat") (PStr "") (PInt 1024)
                        (PInt 1024) (PStr "EulerA") (PInt 20) (PFloat 7%float))
          (Value job_response)
     ++ [ Said (ConsolePrint "Image generation response:" "bold");
          Said (PrintJson job_response);
          unexpected (Exn TypeError "positional arguments") ],
     Value PNone).
Proof. vm_compute. reflexivity. Qed.

Example bad_size_run :
  exec example_cli bad_size_session
  = ([ Called (GetModelDetails models_url versions_url (PInt 101))
              (Value checkpoint_record);
       Called (ProcessModelData checkpoint_record) (Value checkpoint_record);
       positive_prompt (Value (Some "a cat"));
       Asked "Enter negative prompt (optional):" None (Value (Some ""));
       size_prompt (Value (Some "1024*1024"));
       invalid_size ],
     Value PNone).
Proof. vm_compute. reflexivity. Qed.

Lemma example_cli_runs script :
  runs (create_image_cli ascii_int digits_float models_url versions_url
                         (PInt 101) [])
       (trace_of example_cli script) (snd (exec example_cli script)).
Proof. apply (exec_sound example_cli). Qed.

Lemma malformed_size_aborts_witness :
  let t := trace_of example_cli bad_size_session in
  ends_with t [size_prompt (Value (Some "1024*1024")); invalid_size] /\
  snd (exec example_cli bad_size_session) = Value PNone /\
  network_calls t = [GetModelDetails models_url versions_url (PInt 101)] /\
  remote_calls t = [].
Proof.
  refine (malformed_size_aborts _ _ _ _ _ _ _ _ _
            (example_cli_runs bad_size_session) _ star_is_no_size).
  vm_compute. find_in.
Defined.

(** C2, as the spec states it, fails: by the time a malformed size is
    entered, the metadata of the requested model has been fetched over the
    network. *)
Lemma malformed_size_after_metadata_fetch :
  exists t r,
    runs (create_image_cli ascii_int digits_float models_url versions_url
                           (PInt 101) []) t r /\
    In (size_prompt (Value (Some "1024*1024"))) t /\
    ~ int_x_int ascii_int "1024*1024" /\
    In (GetModelDetails models_url versions_url (PInt 101)) (network_calls t).
Proof.
  eexists _, _. split; [apply (example_cli_runs bad_size_session)|].
  split; [vm_compute; find_in|]. split; [exact star_is_no_size|].
  vm_compute. find_in.
Qed.

Lemma submission_requires_valid_input_witness :
  let t := trace_of example_cli good_session in
  exists positive size width height steps n cfg x,
    In (positive_prompt (Value (Some positive))) t /\ positive <> "" /\
    In (size_prompt (Value (Some size))) t /\
    unpack_two_ints ascii_int (split_on "x" size) = Value (width, height) /\
    In (steps_prompt (Value (Some steps))) t /\ ascii_int steps = Some n /\
    In (cfg_prompt (Value (Some cfg))) t /\ digits_float cfg = Some x /\
    forall input_data,
      In input_data (submitted t) ->
      exists neg_prompt scheduler,
        py_getitem input_data (PStr "params") =
          Value (PDict [ (PStr "prompt", PStr positive);
                         (PStr "negativePrompt", neg_prompt);
                         (PStr "scheduler", scheduler);
                         (PStr "steps", PInt n);
                         (PStr "cfgScale", PFloat x);
                         (PStr "width", PInt width);
                         (PStr "height", PInt height);
                         (PStr "seed", PInt (-1));
                         (PStr "clipSkip", PInt 1) ]).
Proof.
  refine (submission_requires_valid_input _ _ _ _ _ _ _ _
            (example_cli_runs good_session) (or_introl _)).
  vm_compute. find_in.
Defined.

Lemma single_version_is_used_witness :
  let t := trace_of example_cli good_session in
  (exists answer rest,
     t = Called (GetModelDetails models_url versions_url (PInt 101))
                (Value checkpoint_record) ::
         Called (ProcessModelData checkpoint_record) (Value checkpoint_record) ::
         positive_prompt answer :: rest) /\
  (forall message choices answer,
     In (Called (SelectAsk message choices) answer) t ->
     message = "Select scheduler:") /\
  submitted t = [good_request] /\
  py_getitem good_request (PStr "model") = Value checkpoint_air.
Proof.
  assert (Hin : In (Called (ProcessModelData checkpoint_record)
                           (Value checkpoint_record))
                   (trace_of example_cli good_session))
    by (vm_compute; find_in).
  destruct (single_version_is_used _ _ _ _ _ _ _ _ checkpoint_record
              checkpoint_record first_version
              (example_cli_runs good_session) Hin eq_refl)
    as (Hsel & _ & _ & Hair).
  destruct (Hair checkpoint_air eq_refl) as [Hprompt Hmodel].
  split; [exact Hprompt|]. split; [exact Hsel|].
  split; [vm_compute; reflexivity|].
  apply Hmodel. vm_compute. left. reflexivity.
Defined.

Lemma job_lookup_after_submission_raises_witness :
  let t := trace_of example_cli good_session in
  (exists e,
     class_of e = TypeError /\
     ends_with t [Said (PrintJson job_response); unexpected e]) /\
  (forall job_id answer, ~ In (Called (JobsGet job_id) answer) t) /\
  (forall style, ~ In (Said (ConsolePrint "Job details:" style)) t) /\
  snd (exec example_cli good_session) = Value PNone.
Proof.
  refine (job_lookup_after_submission_raises _ _ _ _ _ _ _ _
            (request_body checkpoint_air (PStr "a cat") (PStr "") (PInt 1024)
                          (PInt 1024) (PStr "EulerA") (PInt 20) (PFloat 7%float))
            job_response (example_cli_runs good_session) _ eq_refl eq_refl).
  vm_compute. find_in.
Defined.

(** The call itself: one argument for three parameters. *)
Example one_argument_for_three job_id :
  call_positional_3 fetch_job_details [job_id]
  = Ret (Raises (Exn TypeError "positional arguments")).
Proof. reflexivity. Qed.

(** ** The LoRA resolver and the request submitter: further properties *)

(** X14.  [get_lora_details] makes one lookup, with its parameters in the
    order it declares them.  It returns the looked-up record when that
    record is truthy and tagged "LORA", without a message; otherwise it
    returns [None] after one message of severity "error". *)
Theorem get_lora_details_result :
  forall CIVITAI_MODELS CIVITAI_VERSIONS lora_id t r,
    runs (get_lora_details CIVITAI_MODELS CIVITAI_VERSIONS lora_id) t r ->
    exists o rest,
      t = Called (GetModelDetails CIVITAI_MODELS CIVITAI_VERSIONS lora_id) o :: rest /\
      match o with
      | Value record =>
          if truthy record && type_tag_is_lora record
          then rest = [] /\ r = Value record
          else exists msg, rest = [Said (Feedback msg "error")] /\ r = Value PNone
      | Raises e =>
          rest = [Said (Feedback [Lit "Error fetching LoRA details: "; FmtExn e]
                                 "error")] /\
          r = Value PNone
      end.
Proof.
  intros M V id t r Hruns.
  unfold get_lora_details in Hruns. revert t r Hruns.
  match goal with |- forall t r, runs ?p t r -> @?Q t r => change (always p Q) end.
  unfold_ops. cbn. unfold type_tag_is_lora.
  repeat step.
  all: eexists _, _; (split; [reflexivity|]); cbn.
  all: repeat match goal with H : _ = _ |- _ => rewrite H end; cbn; eauto.
Qed.

Lemma get_lora_details_result_witness :
  let t := trace_of (get_lora_details models_url versions_url (PInt 9))
                    [Result (Value checkpoint_record)] in
  exists o rest,
    t = Called (GetModelDetails models_url versions_url (PInt 9)) o :: rest /\
    match o with
    | Value record =>
        if truthy record && type_tag_is_lora record
        then rest = [] /\
             snd (exec (get_lora_details models_url versions_url (PInt 9))
                       [Result (Value checkpoint_record)]) = Value record
        else exists msg,
               rest = [Said (Feedback msg "error")] /\
               snd (exec (get_lora_details models_url versions_url (PInt 9))
                         [Result (Value checkpoint_record)]) = Value PNone
    | Raises e =>
        rest = [Said (Feedback [Lit "Error fetching LoRA details: "; FmtExn e]
                               "error")] /\
        snd (exec (get_lora_details models_url versions_url (PInt 9))
                  [Result (Value checkpoint_record)]) = Value PNone
    end.
Proof.
  exact (get_lora_details_result _ _ _ _ _
           (exec_sound (get_lora_details models_url versions_url (PInt 9))
                       [Result (Value checkpoint_record)])).
Defined.

(** X11.  A run of [generate_image] calls the remote client only to submit,
    and at most once.  Either it submits one request, ends with the
    submission, and returns the endpoint's response ([None] when the
    endpoint raised); or the loop over the LoRA ids raised, nothing is
    submitted, the run ends with "Error generating image: ..." and returns
    [None]. *)
Theorem generate_image_outcome :
  forall CIVITAI_MODELS CIVITAI_VERSIONS air pos_prompt neg_prompt width height
         scheduler steps cfg_scale lora_list t r,
    runs (generate_image CIVITAI_MODELS CIVITAI_VERSIONS air pos_prompt neg_prompt
                         width height scheduler steps cfg_scale lora_list) t r ->
    remote_calls t = map ImageCreate (submitted t) /\
    ((exists input_data response,
        submitted t = [input_data] /\
        ends_with t (submission input_data response) /\
        r = Value (submission_result response)) \/
     (exists e,
        submitted t = [] /\
        ends_with t [Said (Feedback [Lit "Error generating image: "; FmtExn e]
                                    "error")] /\
        lora_list <> [] /\
        r = Value PNone)).
Proof.
  intros M V air pos neg w h sch st cfg loras t r Hruns.
  apply generate_image_spec in Hruns.
  destruct (run_loop _ _ _ _ _ _ _ _ _ _ _ _ _ Hruns)
    as (t_loop & c & nets & Hev & _ & _ & Hc).
  pose proof (lora_event_submitted _ _ Hev) as Hsub.
  pose proof (lora_event_remote _ _ Hev) as Hrem.
  destruct c as [input | v | e]; [| contradiction |].
  - destruct Hc as (_ & _ & response & -> & ->).
    destruct (submission_views input response) as (Hs & _ & Hr & _).
    assert (Hst : submitted (generating :: t_loop ++ submission input response)
                  = [input]).
    { change (generating :: ?l) with ([generating] ++ l).
      rewrite !submitted_app, Hsub, Hs. reflexivity. }
    split.
    + rewrite Hst. change (generating :: ?l) with ([generating] ++ l).
      rewrite !remote_calls_app, Hrem, Hr. reflexivity.
    + left. exists input, response. split; [exact Hst|]. split; [|reflexivity].
      exists (generating :: t_loop). reflexivity.
  - destruct Hc as (-> & ->).
    assert (Hst : submitted (generating :: t_loop ++
                    [Said (Feedback [Lit "Error generating image: "; FmtExn e] "error")])
                  = []).
    { change (generating :: ?l) with ([generating] ++ l).
      rewrite !submitted_app, Hsub. reflexivity. }
    split.
    + rewrite Hst. change (generating :: ?l) with ([generating] ++ l).
      rewrite !remote_calls_app, Hrem. reflexivity.
    + right. exists e. split; [exact Hst|]. split; [|split; [|reflexivity]].
      * exists (generating :: t_loop). reflexivity.
      * intros ->. destruct Hruns as (tl & c' & [-> ->] & (response & Heq & _)).
        apply (f_equal submitted) in Heq. rewrite Hst in Heq.
        change (generating :: ?l) with ([generating] ++ l) in Heq.
        rewrite !submitted_app in Heq.
        destruct (submission_views
                    (request_body air pos neg w h sch st cfg) response) as (Hs & _).
        rewrite Hs in Heq. discriminate Heq.
Qed.

Lemma generate_image_outcome_witness :
  let t := trace_of (example_generate [PInt 7; PInt 9]) two_lookups_script in
  let r := snd (exec (example_generate [PInt 7; PInt 9]) two_lookups_script) in
  remote_calls t = map ImageCreate (submitted t) /\
  ((exists input_data response,
      submitted t = [input_data] /\
      ends_with t (submission input_data response) /\
      r = Value (submission_result response)) \/
   (exists e,
      submitted t = [] /\
      ends_with t [Said (Feedback [Lit "Error generating image: "; FmtExn e]
                                  "error")] /\
      [PInt 7; PInt 9] <> [] /\
      r = Value PNone)).
Proof.
  exact (generate_image_outcome _ _ _ _ _ _ _ _ _ _ _ _ _
           (example_generate_runs [PInt 7; PInt 9] two_lookups_script)).
Defined.

Lemma always_and {A} (p : prog A) (Q1 Q2 : list event -> A -> Prop) :
  always p Q1 -> always p Q2 -> always p (fun t a => Q1 t a /\ Q2 t a).
Proof. intros H1 H2 t a Hr. split; [apply H1 | apply H2]; exact Hr. Qed.

Lemma dict_store_keys nets key e kv :
  In kv (dict_store nets key e) ->
  fst kv = key \/ exists w, In (fst kv, w) nets.
Proof.
  destruct kv as [k v]. intros H.
  apply dict_store_entries in H as [H | (_ & [-> | H])]; cbn; eauto.
Qed.

Lemma dict_store_distinct nets key e :
  distinct_keys nets -> distinct_keys (dict_store nets key e).
Proof.
  induction nets as [| [k w] nets IH]; cbn.
  - auto.
  - intros [Hk Hd]. destruct (key_eqb k key) eqn:E; cbn; [auto|].
    split; [|auto]. rewrite Forall_forall in *. intros kv Hin.
    apply dict_store_keys in Hin as [-> | (w' & Hin)]; [exact E|].
    exact (Hk _ Hin).
Qed.

Lemma dict_store_kept_same nets key :
  kept (dict_store nets key lora_entry) key.
Proof.
  induction nets as [| [k w] nets IH]; cbn.
  - exists key. split; [left; reflexivity | left; reflexivity].
  - destruct (key_eqb k key) eqn:E.
    + exists k. split; [left; reflexivity | right; exact E].
    + destruct IH as (k' & Hin & Hk). exists k'. split; [right; exact Hin | exact Hk].
Qed.

Lemma dict_store_kept_other nets key lora_air :
  kept nets lora_air -> kept (dict_store nets key lora_entry) lora_air.
Proof.
  intros (k' & Hin & Hk). exists k'. split; [|exact Hk]. clear Hk.
  induction nets as [| [k w] nets IH]; cbn; [destruct Hin|].
  destruct Hin as [Heq | Hin].
  - inversion Heq; subst. destruct (key_eqb k' key); left; reflexivity.
  - destruct (key_eqb k key); right; auto.
Qed.

Lemma getitem_contains x key v :
  py_getitem x (PStr key) = Value v -> py_contains x key = Value true.
Proof.
  destruct x; cbn; try discriminate.
  intros H. f_equal.
  induction entries as [| [k w] entries IH]; cbn in *; [discriminate|].
  unfold str_eq at 1. cbn [fst]. destruct (key_eqb k (PStr key)); cbn; auto.
Qed.

Lemma dict_store_length nets key e :
  (List.length (dict_store nets key e) <= S (List.length nets))%nat.
Proof.
  induction nets as [| [k w] nets IH]; cbn; [lia|].
  destruct (key_eqb k key); cbn; lia.
Qed.





Section Networks.

Variables CIVITAI_MODELS CIVITAI_VERSIONS : pyval.
Variables air pos_prompt neg_prompt width height scheduler steps cfg_scale : pyval.

Let body : pyval :=
  request_body air pos_prompt neg_prompt width height scheduler steps cfg_scale.

Lemma add_lora_retains nets lora_id :
  always (add_lora CIVITAI_MODELS CIVITAI_VERSIONS (with_networks body nets) lora_id)
    (fun t c =>
       forall record lora_air input_data,
         In (Called (GetModelDetails lora_id CIVITAI_MODELS CIVITAI_VERSIONS)
                    (Value record)) t ->
         retained record lora_air ->
         c = Normal input_data ->
         input_data = with_networks body (dict_store nets lora_air lora_entry)).
Proof.
  unfold add_lora. unfold invoke at 1. unfold bind at 1.
  apply always_bind. apply always_bind.
  eapply always_weaken; [apply get_lora_details_spec|].
  cbn beta. intros t r [o Ho].
  destruct (tagged_lora o) eqn:Etag.
  - destruct Ho as (record & -> & -> & ->).
    pose proof Etag as Etag'.
    unfold tagged_lora, type_tag_is_lora in Etag.
    apply andb_prop in Etag as [Et Etag].
    unfold_ops. cbn. apply always_Ret. cbn. rewrite Et. cbn.
    repeat step.
    all: intros record' lora_air input_data Hin
           (_ & versions & first & Hvs & Htv & Hfirst & Hair & Hta) Hc.
    all: try discriminate Hc.
    all: in_cases Hin; inversion Hin; subst record'.
    all: try (apply getitem_contains in Hvs; congruence).
    all: repeat match goal with
           | H1 : ?x = Value _, H2 : ?x = _ |- _ =>
               rewrite H1 in H2; inversion H2; subst; clear H2
           end.
    all: congruence.
  - destruct Ho as (msg & -> & Hmsg & ->).
    unfold_ops. cbn. apply always_Ret. cbn. apply always_Tell, always_Ret.
    intros record lora_air input_data Hin (Htag & _) _.
    in_cases Hin. inversion Hin; subst. congruence.
Qed.

Lemma lora_loop_networks items : forall nets,
  always (for_each items (add_lora CIVITAI_MODELS CIVITAI_VERSIONS)
                   (with_networks body nets))
         (loop_net_post CIVITAI_MODELS CIVITAI_VERSIONS body items nets).
Proof.
  induction items as [| lora_id items IH]; intros nets.
  - cbn. apply always_Ret. intros input_data Hc. inversion Hc; subst.
    exists nets. split; [reflexivity|]. split; [cbn; lia|].
    split; [auto|]. split; [auto|].
    intros ? ? ? [].
  - cbn [for_each]. unfold bind at 1. apply always_bind.
    eapply always_weaken;
      [apply always_and; [apply add_lora_spec | apply add_lora_retains]|].
    cbn beta. intros t1 c1 [(o & rest & -> & Hrest & _ & Hc) Hret].
    destruct c1 as [input1 | v | e]; [| contradiction |].
    + assert (Hn : exists nets1,
                 input1 = with_networks body nets1 /\
                 (List.length nets1 <= S (List.length nets))%nat /\
                 (distinct_keys nets -> distinct_keys nets1) /\
                 (forall a, kept nets a -> kept nets1 a) /\
                 (forall record a, o = Value record -> retained record a ->
                                   kept nets1 a)).
      { destruct Hc as [-> | (record & lora_air & -> & Hr & ->)].
        - exists nets. split; [reflexivity|]. split; [lia|].
          split; [auto|]. split; [auto|].
          intros record a -> Hra.
          specialize (Hret record a _ (or_introl eq_refl) Hra eq_refl).
          unfold with_networks in Hret. cbn in Hret. inversion Hret as [Hn].
          rewrite Hn. apply dict_store_kept_same.
        - eexists. split; [reflexivity|].
          split; [apply dict_store_length|].
          split; [apply dict_store_distinct|].
          split; [intros a; apply dict_store_kept_other|].
          intros record' a Hv Hra. inversion Hv; subst record'.
          specialize (Hret record a _ (or_introl eq_refl) Hra eq_refl).
          unfold with_networks in Hret. cbn in Hret. inversion Hret as [Hn].
          rewrite Hn. apply dict_store_kept_same. }
      destruct Hn as (nets1 & -> & Hl1 & Hd1 & Hk1 & Hr1).
      eapply always_weaken; [apply IH|].
      intros t2 c2 Hpost input_data Hc2.
      destruct (Hpost input_data Hc2) as (nets' & -> & Hl & Hd & Hk & Hr).
      exists nets'. split; [reflexivity|]. split; [cbn [List.length]; lia|].
      split; [auto|]. split; [auto|].
      intros l record a Hin Hra.
      destruct Hin as [Hin | Hin].
      * inversion Hin; subst. apply Hk. eapply Hr1; eauto.
      * apply in_app_or in Hin as [Hin | Hin]; [|eauto].
        rewrite Forall_forall in Hrest. destruct (Hrest _ Hin).
    + apply always_Ret. intros input_data Hc'. discriminate Hc'.
Qed.

Lemma generate_image_networks lora_list :
  always (generate_image CIVITAI_MODELS CIVITAI_VERSIONS air pos_prompt neg_prompt
                         width height scheduler steps cfg_scale lora_list)
    (fun t r =>
       forall input_data,
         In input_data (submitted t) ->
         lora_list <> [] ->
         exists nets,
           input_data = with_networks body nets /\
           (List.length nets <= List.length lora_list)%nat /\
           distinct_keys nets /\
           forall lora_id record lora_air,
             In (Called (GetModelDetails lora_id CIVITAI_MODELS CIVITAI_VERSIONS)
                        (Value record)) t ->
             retained record lora_air ->
             kept nets lora_air).
Proof.
  unfold generate_image. unfold_ops.
  destruct lora_list as [| lora_id items].
  - intros t r _ input_data _ H. contradiction H. reflexivity.
  - set (loras := lora_id :: items).
    cbn -[for_each loras]. apply always_Tell. apply always_Tell.
    focus.
    eapply always_weaken;
      [apply always_and; [apply (lora_loop_spec _ _ _ _ _ _ _ _ _ _ loras [])
                         | apply (lora_loop_networks loras [])]|].
    cbn beta. intros t c [Hloop Hnet].
    pose proof (loop_events _ _ _ _ _ _ _ Hloop) as Hev.
    pose proof (loop_result _ _ _ _ _ _ _ Hloop) as Hres.
    assert (Hlook : forall l record,
               In (Called (GetModelDetails l CIVITAI_MODELS CIVITAI_VERSIONS)
                          (Value record)) t ->
               forall input_data, c = Normal input_data ->
               forall nets, input_data = with_networks body nets ->
               forall a, retained record a -> kept nets a).
    { intros l record Hin input_data Hc nets Hi a Hra.
      destruct (Hnet input_data Hc) as (nets' & Hi' & _ & _ & _ & Hk).
      rewrite Hi in Hi'. unfold with_networks in Hi'. cbn in Hi'.
      inversion Hi'; subst. eapply Hk; eauto. }
    destruct c as [input | v | e]; [| contradiction |]; cbn.
    + destruct (Hnet input eq_refl) as (nets & -> & Hl & Hd & _ & _).
      repeat step.
      all: intros input_data Hin _.
      all: apply submitted_In in Hin as (o & Hin).
      all: in_cases Hin.
      all: try (rewrite Forall_forall in Hev; destruct (Hev _ Hin)).
      all: inversion Hin; subst.
      all: exists nets; split; [reflexivity|]; split; [exact Hl|];
        split; [apply Hd; exact I|].
      all: intros l record la Hcall Hra.
      all: in_cases Hcall.
      all: eapply (Hlook l record); eauto.
    + repeat step.
      intros input_data Hin _.
      apply submitted_In in Hin as (o & Hin).
      in_cases Hin.
      rewrite Forall_forall in Hev. destruct (Hev _ Hin).
Qed.

End Networks.

Lemma lookup_in_lookups t a b c o :
  In (Called (GetModelDetails a b c) o) t -> In (GetModelDetails a b c) (lookups t).
Proof.
  induction t as [| ev t IH]; [intros []|].
  intros H. change (ev :: t) with ([ev] ++ t). rewrite lookups_app.
  apply in_or_app. destruct H as [-> | H]; [left; left; reflexivity | right; auto].
Qed.



(** Two ids resolve to the same LoRA: it is announced twice and submitted
    once. *)
Example shared_reference_run :
  let t := trace_of (example_generate [PInt 7; PInt 9]) shared_reference_script in
  List.length (filter (fun ev =>
                 match ev with
                 | Said (Feedback (Lit "Added LoRA: " :: _) _) => true
                 | _ => false
                 end) t) = 2%nat /\
  submitted t = [two_lookups_request].
Proof. vm_compute. repeat split. Qed.

(** X13.  Every LoRA record that passes the checks of the loop (tagged
    "LORA", with versions, the first of which has a truthy "air") is in
    the request that is submitted: its artifact reference, or an earlier
    key equal to it, maps to [{type: Lora, strength: 1.0}]. *)
Theorem retained_loras_are_submitted :
  forall CIVITAI_MODELS CIVITAI_VERSIONS air pos_prompt neg_prompt width height
         scheduler steps cfg_scale lora_list t r input_data lora_id record lora_air,
    runs (generate_image CIVITAI_MODELS CIVITAI_VERSIONS air pos_prompt neg_prompt
                         width height scheduler steps cfg_scale lora_list) t r ->
    In input_data (submitted t) ->
    In (Called (GetModelDetails lora_id CIVITAI_MODELS CIVITAI_VERSIONS)
               (Value record)) t ->
    retained record lora_air ->
    exists nets key,
      py_getitem input_data (PStr "additionalNetworks") = Value (PDict nets) /\
      In (key, lora_entry) nets /\
      (key = lora_air \/ key_eqb key lora_air = true).
Proof.
  intros M V air pos neg w h sch st cfg loras t r input_data lora_id record la
         Hruns Hin Hcall Hret.
  assert (Hne : loras <> []).
  { intros ->. pose proof Hruns as Hr. apply generate_image_spec in Hr.
    destruct (run_lookups _ _ _ _ _ _ _ _ _ _ _ _ _ Hr) as (k & Hk & _).
    apply lookup_in_lookups in Hcall. rewrite Hk in Hcall.
    destruct k; destruct Hcall. }
  destruct (generate_image_networks _ _ _ _ _ _ _ _ _ _ _ _ _ Hruns _ Hin Hne)
    as (nets & -> & _ & _ & Hk).
  destruct (Hk _ _ _ Hcall Hret) as (key & Hkey & Heq).
  exists nets, key. split; [reflexivity|]. auto.
Qed.

Lemma retained_loras_are_submitted_witness :
  exists nets key,
    py_getitem two_lookups_request (PStr "additionalNetworks")
    = Value (PDict nets) /\
    In (key, lora_entry) nets /\
    (key = lora_air \/ key_eqb key lora_air = true).
Proof.
  refine (retained_loras_are_submitted _ _ _ _ _ _ _ _ _ _ _ _ _
            two_lookups_request (PInt 7) lora_record lora_air
            (example_generate_runs [PInt 7; PInt 9] two_lookups_script)
            (or_introl eq_refl) _ _).
  - vm_compute. find_in.
  - split; [reflexivity|]. eexists _, _. repeat split; reflexivity.
Defined.

(** ** The job reporter: further properties *)

(** X15.  [cancel_job] asks the remote client to cancel, once, whatever the
    job identifier is (an empty one too: there is no check of it); it
    prints a truthy answer under "Job cancellation response:", reports
    "Failed to cancel the job." for a falsy one and the exception when the
    client raises.  In each case it returns [None]: nothing propagates. *)
Theorem cancel_job_report :
  forall job_id t r,
    runs (cancel_job job_id) t r ->
    r = Value PNone /\
    calls t = [JobsCancel job_id] /\
    exists response,
      t = Called (JobsCancel job_id) response ::
          match response with
          | Value answer =>
              if truthy answer
              then [Said (ConsolePrint "Job cancellation response:" "bold");
                    Said (PrintJson answer)]
              else [Said (Feedback [Lit "Failed to cancel the job."] "error")]
          | Raises e =>
              [Said (Feedback [Lit "Error cancelling job: "; FmtExn e] "error")]
          end.
Proof.
  intros job_id t r Hruns.
  apply cancel_job_spec in Hruns as [-> (response & ->)].
  split; [reflexivity|]. split; [|eauto].
  destruct response as [answer | e]; [destruct (truthy answer)|]; reflexivity.
Qed.

Lemma cancel_job_report_witness :
  let script := [Result (Raises service_unavailable)] in
  let t := trace_of (cancel_job (PStr "")) script in
  snd (exec (cancel_job (PStr "")) script) = Value PNone /\
  calls t = [JobsCancel (PStr "")] /\
  exists response,
    t = Called (JobsCancel (PStr "")) response ::
        match response with
        | Value answer =>
            if truthy answer
            then [Said (ConsolePrint "Job cancellation response:" "bold");
                  Said (PrintJson answer)]
            else [Said (Feedback [Lit "Failed to cancel the job."] "error")]
        | Raises e =>
            [Said (Feedback [Lit "Error cancelling job: "; FmtExn e] "error")]
        end.
Proof.
  exact (cancel_job_report _ _ _
           (exec_sound (cancel_job (PStr ""))
                       [Result (Raises service_unavailable)])).
Defined.

(** The client refuses: the refusal is reported and [None] returned. *)
Example refused_cancellation :
  exec (cancel_job (PStr "abc123")) [Result (Raises service_unavailable)]
  = ([ Called (JobsCancel (PStr "abc123")) (Raises service_unavailable);
       Said (Feedback [Lit "Error cancelling job: "; FmtExn service_unavailable]
                      "error") ],
     Value PNone).
Proof. vm_compute. reflexivity. Qed.

(** ** The interactive collector: further properties *)

Lemma version_choices_offered versions : forall choices,
  version_choices versions = Value choices -> Forall2 offered versions choices.
Proof.
  induction versions as [| v versions IH]; cbn; intros choices H.
  - inversion H. constructor.
  - unfold version_choice in H.
    destruct (py_getitem v (PStr "id")) as [id|] eqn:Eid; cbn in H; [|discriminate].
    destruct (py_getitem v (PStr "name")) as [name|] eqn:En; cbn in H; [|discriminate].
    destruct (version_choices versions) as [cs|]; cbn in H; [|discriminate].
    inversion H; subst. constructor; [|auto].
    split; [reflexivity|]. exists id, name. auto.
Qed.

Lemma followed_by_here x y l : followed_by (x :: y :: l) x y.
Proof. exists [], l. reflexivity. Qed.

Lemma followed_by_cons e l x y : followed_by l x y -> followed_by (e :: l) x y.
Proof. intros (b & a & ->). exists (e :: b), a. reflexivity. Qed.

Ltac follows := repeat first [ apply followed_by_here | apply followed_by_cons ].

Lemma split_on_absent sep s : occurs sep s = false -> split_on sep s = [s].
Proof.
  induction s as [| c s IH]; cbn; [reflexivity|].
  intros H. apply orb_false_elim in H as [Hc Hs].
  rewrite Hc, (IH Hs). reflexivity.
Qed.

Lemma split_on_joined sep a b :
  occurs sep a = false -> occurs sep b = false ->
  split_on sep (a ++ String sep b) = [a; b].
Proof.
  intros Ha Hb. induction a as [| c a IH]; cbn.
  - rewrite Ascii.eqb_refl, (split_on_absent _ _ Hb). reflexivity.
  - cbn in Ha. apply orb_false_elim in Ha as [Hc Ha].
    rewrite Hc, (IH Ha). reflexivity.
Qed.

Section CollectorPaths.

Variable int_of_str : string -> option Z.
Variable float_of_str : string -> option float.

Let cli := create_image_cli int_of_str float_of_str.

(** X1.  [create_image_cli] returns [None] in every run: whatever the
    collaborators answer or raise, no exception leaves the flow. *)
Theorem cli_returns_none :
  forall CIVITAI_MODELS CIVITAI_VERSIONS requested_model lora_list t r,
    runs (cli CIVITAI_MODELS CIVITAI_VERSIONS requested_model lora_list) t r ->
    r = Value PNone.
Proof.
  intros M V id loras.
  change (always (cli M V id loras) (fun t r => r = Value PNone)).
  unfold cli. explore. all: reflexivity.
Qed.

(** X2.  When the processed metadata is falsy, the run is the two metadata
    calls and the error "No model found with ID: ..." for the requested
    model: nothing is asked and nothing is submitted. *)
Theorem no_model_found :
  forall CIVITAI_MODELS CIVITAI_VERSIONS requested_model lora_list t r
         raw_model processed_model,
    runs (cli CIVITAI_MODELS CIVITAI_VERSIONS requested_model lora_list) t r ->
    In (Called (ProcessModelData raw_model) (Value processed_model)) t ->
    truthy processed_model = false ->
    t = [ Called (GetModelDetails CIVITAI_MODELS CIVITAI_VERSIONS requested_model)
                 (Value raw_model);
          Called (ProcessModelData raw_model) (Value processed_model);
          Said (Feedback [Lit "No model found with ID: "; Fmt requested_model]
                         "error") ].
Proof.
  intros M V id loras t r raw processed Hruns.
  revert raw processed. revert t r Hruns.
  change (always (cli M V id loras) (fun t r =>
    forall raw processed,
      In (Called (ProcessModelData raw) (Value processed)) t ->
      truthy processed = false ->
      t = [ Called (GetModelDetails M V id) (Value raw);
            Called (ProcessModelData raw) (Value processed);
            Said (Feedback [Lit "No model found with ID: "; Fmt id] "error") ])).
  unfold cli. explore.
  all: intros raw processed Hin Hfalse; in_cases Hin.
  all: inversion Hin; subst.
  all: first [ reflexivity | congruence ].
Qed.

(** X3.  When neither the processed nor the raw record has a version (both
    have an empty "versions" list), indexing the first version raises
    [IndexError]: the run is the two metadata calls and the message of the
    generic handler, before any prompt. *)
Theorem model_without_versions :
  forall CIVITAI_MODELS CIVITAI_VERSIONS requested_model lora_list t r
         raw_model processed_model,
    runs (cli CIVITAI_MODELS CIVITAI_VERSIONS requested_model lora_list) t r ->
    In (Called (ProcessModelData raw_model) (Value processed_model)) t ->
    py_getitem processed_model (PStr "versions") = Value (PList []) ->
    py_getitem raw_model (PStr "versions") = Value (PList []) ->
    exists e,
      class_of e = IndexError /\
      t = [ Called (GetModelDetails CIVITAI_MODELS CIVITAI_VERSIONS requested_model)
                   (Value raw_model);
            Called (ProcessModelData raw_model) (Value processed_model);
            unexpected e ].
Proof.
  intros M V id loras t r raw processed Hruns.
  revert raw processed. revert t r Hruns.
  change (always (cli M V id loras) (fun t r =>
    forall raw processed,
      In (Called (ProcessModelData raw) (Value processed)) t ->
      py_getitem processed (PStr "versions") = Value (PList []) ->
      py_getitem raw (PStr "versions") = Value (PList []) ->
      exists e,
        class_of e = IndexError /\
        t = [ Called (GetModelDetails M V id) (Value raw);
              Called (ProcessModelData raw) (Value processed);
              unexpected e ])).
  unfold cli, unexpected. explore.
  all: intros raw processed Hin Hp Hr; in_cases Hin.
  all: inversion Hin; subst; clear Hin.
  all: try (destruct processed; cbn in *; try discriminate;
            destruct entries; cbn in *; discriminate).
  all: repeat match goal with
         | Hv : py_getitem ?p (PStr "versions") = Value (PList []),
           H : py_getitem ?p (PStr "versions") = _ |- _ =>
             rewrite Hv in H; inversion H; subst; clear H
         | H : context [truthy (PList [])] |- _ => cbn in H
         | H : py_len (PList []) = _ |- _ =>
             cbn in H; inversion H; subst; clear H
         | H : py_iter (PList []) = _ |- _ =>
             cbn in H; inversion H; subst; clear H
         | H : py_getitem (PList []) (PInt 0) = _ |- _ =>
             cbn in H; inversion H; subst; clear H
         | H : (1 <? 0) = true |- _ => discriminate H
         end.
  all: try discriminate.
  all: eexists; (split; [| reflexivity]); reflexivity.
Qed.

(** X4.  When the processed record's "versions" is falsy, the versions of
    the raw record are used: with exactly one version there, no version is
    asked for, and that version is read right after the metadata calls.
    If it has no "air" the run ends there with the message of the generic
    handler; if it has one, the flow goes on to the positive prompt and
    that "air" is the model reference of every submitted request. *)
Theorem raw_model_fallback :
  forall CIVITAI_MODELS CIVITAI_VERSIONS requested_model lora_list t r
         raw_model processed_model versions version,
    runs (cli CIVITAI_MODELS CIVITAI_VERSIONS requested_model lora_list) t r ->
    In (Called (ProcessModelData raw_model) (Value processed_model)) t ->
    py_getitem processed_model (PStr "versions") = Value versions ->
    truthy versions = false ->
    py_getitem raw_model (PStr "versions") = Value (PList [version]) ->
    (forall message choices answer,
       In (Called (SelectAsk message choices) answer) t ->
       message = "Select scheduler:") /\
    (forall input_data,
       In input_data (submitted t) ->
       exists air,
         py_getitem version (PStr "air") = Value air /\
         py_getitem input_data (PStr "model") = Value air) /\
    (forall e,
       py_getitem version (PStr "air") = Raises e ->
       t = [ Called (GetModelDetails CIVITAI_MODELS CIVITAI_VERSIONS requested_model)
                    (Value raw_model);
             Called (ProcessModelData raw_model) (Value processed_model);
             unexpected e ]) /\
    (forall air,
       py_getitem version (PStr "air") = Value air ->
       (exists answer rest,
          t = Called (GetModelDetails CIVITAI_MODELS CIVITAI_VERSIONS requested_model)
                     (Value raw_model) ::
              Called (ProcessModelData raw_model) (Value processed_model) ::
              positive_prompt answer :: rest) /\
       (forall input_data,
          In input_data (submitted t) ->
          py_getitem input_data (PStr "model") = Value air)).
Proof.
  intros M V id loras t r raw processed versions version Hruns Hin Hp Hfalse Hr.
  cut ((forall message choices answer,
          In (Called (SelectAsk message choices) answer) t ->
          message = "Select scheduler:") /\
       (forall input_data,
          In input_data (submitted t) ->
          exists air,
            py_getitem version (PStr "air") = Value air /\
            py_getitem input_data (PStr "model") = Value air) /\
       (forall e,
          py_getitem version (PStr "air") = Raises e ->
          t = [ Called (GetModelDetails M V id) (Value raw);
                Called (ProcessModelData raw) (Value processed);
                unexpected e ]) /\
       (forall air,
          py_getitem version (PStr "air") = Value air ->
          exists answer rest,
            t = Called (GetModelDetails M V id) (Value raw) ::
                Called (ProcessModelData raw) (Value processed) ::
                positive_prompt answer :: rest)).
  { intros (Hsel & Hsub & Hraise & Hgo).
    split; [exact Hsel|]. split; [exact Hsub|]. split; [exact Hraise|].
    intros air Hair. split; [exact (Hgo air Hair)|].
    intros input_data Hi. destruct (Hsub _ Hi) as (air' & Ha & Hm). congruence. }
  revert raw processed versions version Hin Hp Hfalse Hr. revert t r Hruns.
  change (always (cli M V id loras) (fun t r =>
    forall raw processed versions version,
      In (Called (ProcessModelData raw) (Value processed)) t ->
      py_getitem processed (PStr "versions") = Value versions ->
      truthy versions = false ->
      py_getitem raw (PStr "versions") = Value (PList [version]) ->
      (forall message choices answer,
         In (Called (SelectAsk message choices) answer) t ->
         message = "Select scheduler:") /\
      (forall input_data,
         In input_data (submitted t) ->
         exists air,
           py_getitem version (PStr "air") = Value air /\
           py_getitem input_data (PStr "model") = Value air) /\
      (forall e,
         py_getitem version (PStr "air") = Raises e ->
         t = [ Called (GetModelDetails M V id) (Value raw);
               Called (ProcessModelData raw) (Value processed);
               unexpected e ]) /\
      (forall air,
         py_getitem version (PStr "air") = Value air ->
         exists answer rest,
           t = Called (GetModelDetails M V id) (Value raw) ::
               Called (ProcessModelData raw) (Value processed) ::
               positive_prompt answer :: rest))).
  unfold cli, unexpected, positive_prompt. explore.
  all: intros raw processed versions version Hin Hp Hfalse Hr; in_cases Hin.
  all: inversion Hin; subst; clear Hin.
  all: try (destruct processed; cbn in *; try discriminate;
            destruct entries; cbn in *; discriminate).
  all: repeat match goal with
         | Hv : py_getitem ?p (PStr "versions") = Value ?x,
           H : py_getitem ?p (PStr "versions") = _ |- _ =>
             rewrite Hv in H; inversion H; subst; clear H
         | H : context [if truthy ?x then _ else _] |- _ => rewrite Hfalse in H
         | H : py_len (PList [_]) = _ |- _ =>
             cbn in H; inversion H; subst; clear H
         | H : py_getitem (PList [_]) (PInt 0) = _ |- _ =>
             cbn in H; inversion H; subst; clear H
         | H : (1 <? 1) = true |- _ => discriminate H
         end.
  all: (split; [| split; [| split]]).
  all: try (intros message choices answer Hsel; in_cases Hsel;
            inversion Hsel; reflexivity).
  all: try (intros e' He'; congruence).
  all: try (intros air' Hair'; do 2 eexists; reflexivity).
  all: intros input_data Hsub.
  all: apply submitted_In in Hsub as (o & Hsub); in_cases Hsub.
  all: assert (Hs : In input_data (submitted tg)) by (apply submitted_In; eauto).
  all: destruct (run_submitted _ _ _ _ _ _ _ _ _ _ _ _ _ _ Hg Hs) as (nets & -> & _).
  all: eexists; split; [eassumption|].
  all: destruct loras; reflexivity.
Qed.

(** X5.  With two or more versions, the operator is asked to select one
    right after the metadata calls, among one choice per version (the
    version itself, named "id - name"); a version without "id" or "name"
    ends the run in the generic handler before anything is asked.  When the
    selection is falsy (cancelled), the run ends with "No version selected.
    Aborting."; otherwise the model reference of every submitted request is
    the "air" of the selected version. *)
Theorem version_selection :
  forall CIVITAI_MODELS CIVITAI_VERSIONS requested_model lora_list t r
         raw_model processed_model versions,
    runs (cli CIVITAI_MODELS CIVITAI_VERSIONS requested_model lora_list) t r ->
    In (Called (ProcessModelData raw_model) (Value processed_model)) t ->
    py_getitem processed_model (PStr "versions") = Value (PList versions) ->
    (2 <= List.length versions)%nat ->
    (forall e, version_choices versions = Raises e ->
       t = [ Called (GetModelDetails CIVITAI_MODELS CIVITAI_VERSIONS requested_model)
                    (Value raw_model);
             Called (ProcessModelData raw_model) (Value processed_model);
             unexpected e ]) /\
    (forall choices, version_choices versions = Value choices ->
       Forall2 offered versions choices /\
       exists answer rest,
         t = Called (GetModelDetails CIVITAI_MODELS CIVITAI_VERSIONS requested_model)
                    (Value raw_model) ::
             Called (ProcessModelData raw_model) (Value processed_model) ::
             Called (SelectAsk "Select a version" choices) answer :: rest /\
         (forall selected,
            answer = Value selected -> truthy selected = false ->
            rest = [Said (Feedback [Lit "No version selected. Aborting."] "error")]) /\
         (forall selected input_data,
            answer = Value selected -> In input_data (submitted t) ->
            exists air,
              py_getitem selected (PStr "air") = Value air /\
              py_getitem input_data (PStr "model") = Value air)).
Proof.
  intros M V id loras t r raw processed versions Hruns.
  revert raw processed versions. revert t r Hruns.
  change (always (cli M V id loras) (fun t r =>
    forall raw processed versions,
    In (Called (ProcessModelData raw) (Value processed)) t ->
    py_getitem processed (PStr "versions") = Value (PList versions) ->
    (2 <= List.length versions)%nat ->
    (forall e, version_choices versions = Raises e ->
       t = [ Called (GetModelDetails M V id) (Value raw);
             Called (ProcessModelData raw) (Value processed);
             unexpected e ]) /\
    (forall choices, version_choices versions = Value choices ->
       Forall2 offered versions choices /\
       exists answer rest,
         t = Called (GetModelDetails M V id) (Value raw) ::
             Called (ProcessModelData raw) (Value processed) ::
             Called (SelectAsk "Select a version" choices) answer :: rest /\
         (forall selected,
            answer = Value selected -> truthy selected = false ->
            rest = [Said (Feedback [Lit "No version selected. Aborting."] "error")]) /\
         (forall selected input_data,
            answer = Value selected -> In input_data (submitted t) ->
            exists air,
              py_getitem selected (PStr "air") = Value air /\
              py_getitem input_data (PStr "model") = Value air)))).
  unfold cli, unexpected. explore.
  all: intros raw processed versions Hin Hvers Hlen; in_cases Hin.
  all: inversion Hin; subst; clear Hin.
  all: try (destruct processed; cbn in *; try discriminate;
            destruct entries; cbn in *; discriminate).
  all: assert (Htv : truthy (PList versions) = true)
         by (destruct versions; [cbn in Hlen; lia | reflexivity]).
  all: assert (Hl : (1 <? Z.of_nat (List.length versions)) = true)
         by (apply Z.ltb_lt; lia).
  all: repeat match goal with
         | Hv : py_getitem ?p (PStr "versions") = Value (PList ?vs),
           H : py_getitem ?p (PStr "versions") = _ |- _ =>
             rewrite Hv in H; inversion H; subst; clear H
         | H : context [if truthy (PList _) then _ else _] |- _ =>
             rewrite Htv in H
         | H : py_len (PList _) = _ |- _ =>
             cbn in H; inversion H; subst; clear H
         | H : py_iter (PList _) = _ |- _ =>
             cbn in H; inversion H; subst; clear H
         | H : (1 <? Z.of_nat (List.length _)) = false |- _ =>
             rewrite Hl in H; discriminate H
         end.
  all: try discriminate.
  all: split; [intros e' He'; try congruence | intros choices Hch].
  all: try congruence.
  all: try (split; [apply version_choices_offered; exact Hch |]).
  all: match goal with
       | H1 : version_choices ?v = Value ?c1,
         H2 : version_choices ?v = Value ?c2 |- _ =>
           rewrite H1 in H2; inversion H2; subst; clear H2
       end.
  all: do 2 eexists; split; [reflexivity|]; split.
  all: try (intros selected Ha Hf; inversion Ha; subst;
            first [reflexivity | congruence]).
  all: intros selected input_data Ha Hsub; inversion Ha; subst.
  all: apply submitted_In in Hsub as (o & Hsub); in_cases Hsub.
  all: assert (Hs : In input_data (submitted tg)) by (apply submitted_In; eauto).
  all: destruct (run_submitted _ _ _ _ _ _ _ _ _ _ _ _ _ _ Hg Hs) as (nets & -> & _).
  all: eexists; split; [eassumption|].
  all: destruct loras; reflexivity.
Qed.

(** X6.  When the steps prompt is answered with a string [int] rejects, the
    flow reports "Invalid number of steps. Please enter an integer." and
    ends there, without any call of the remote client. *)
Theorem non_numeric_steps_abort :
  forall CIVITAI_MODELS CIVITAI_VERSIONS requested_model lora_list t r steps,
    runs (cli CIVITAI_MODELS CIVITAI_VERSIONS requested_model lora_list) t r ->
    In (steps_prompt (Value (Some steps))) t ->
    int_of_str steps = None ->
    ends_with t [steps_prompt (Value (Some steps)); invalid_steps] /\
    remote_calls t = [].
Proof.
  intros M V id loras t r steps Hruns. revert steps. revert t r Hruns.
  change (always (cli M V id loras) (fun t r =>
    forall steps, In (steps_prompt (Value (Some steps))) t ->
      int_of_str steps = None ->
      ends_with t [steps_prompt (Value (Some steps)); invalid_steps] /\
      remote_calls t = [])).
  unfold cli, steps_prompt, invalid_steps. explore.
  all: intros steps Hin Hnone; in_cases Hin.
  all: inversion Hin; subst.
  all: try match goal with
           | H : py_int _ (Some _) = _ |- _ =>
               cbn in H; rewrite Hnone in H; inversion H; subst; discriminate
           end.
  all: split; [ends | reflexivity].
Qed.

(** X7.  When the CFG prompt is answered with a string [float] rejects, the
    flow reports "Invalid CFG scale. Please enter a number." and ends
    there, without any call of the remote client. *)
Theorem non_numeric_cfg_abort :
  forall CIVITAI_MODELS CIVITAI_VERSIONS requested_model lora_list t r cfg,
    runs (cli CIVITAI_MODELS CIVITAI_VERSIONS requested_model lora_list) t r ->
    In (cfg_prompt (Value (Some cfg))) t ->
    float_of_str cfg = None ->
    ends_with t [cfg_prompt (Value (Some cfg)); invalid_cfg] /\
    remote_calls t = [].
Proof.
  intros M V id loras t r cfg Hruns. revert cfg. revert t r Hruns.
  change (always (cli M V id loras) (fun t r =>
    forall cfg, In (cfg_prompt (Value (Some cfg))) t ->
      float_of_str cfg = None ->
      ends_with t [cfg_prompt (Value (Some cfg)); invalid_cfg] /\
      remote_calls t = [])).
  unfold cli, cfg_prompt, invalid_cfg. explore.
  all: intros cfg Hin Hnone; in_cases Hin.
  all: inversion Hin; subst.
  all: try match goal with
           | H : py_float _ (Some _) = _ |- _ =>
               cbn in H; rewrite Hnone in H; inversion H; subst; discriminate
           end.
  all: split; [ends | reflexivity].
Qed.

(** X8.  A cancelled prompt ([None]) is not a validation error: at the size
    prompt [None.split] raises [AttributeError], at the steps and CFG
    prompts [int(None)] and [float(None)] raise [TypeError]; none is a
    [ValueError], so the run ends with the message of the generic handler,
    without any call of the remote client. *)
Theorem cancelled_answers_are_unexpected :
  forall CIVITAI_MODELS CIVITAI_VERSIONS requested_model lora_list t r,
    runs (cli CIVITAI_MODELS CIVITAI_VERSIONS requested_model lora_list) t r ->
    (In (size_prompt (Value None)) t ->
     exists e, class_of e = AttributeError /\
               ends_with t [size_prompt (Value None); unexpected e] /\
               remote_calls t = []) /\
    (In (steps_prompt (Value None)) t ->
     exists e, class_of e = TypeError /\
               ends_with t [steps_prompt (Value None); unexpected e] /\
               remote_calls t = []) /\
    (In (cfg_prompt (Value None)) t ->
     exists e, class_of e = TypeError /\
               ends_with t [cfg_prompt (Value None); unexpected e] /\
               remote_calls t = []).
Proof.
  intros M V id loras.
  change (always (cli M V id loras) (fun t r =>
    (In (size_prompt (Value None)) t ->
     exists e, class_of e = AttributeError /\
               ends_with t [size_prompt (Value None); unexpected e] /\
               remote_calls t = []) /\
    (In (steps_prompt (Value None)) t ->
     exists e, class_of e = TypeError /\
               ends_with t [steps_prompt (Value None); unexpected e] /\
               remote_calls t = []) /\
    (In (cfg_prompt (Value None)) t ->
     exists e, class_of e = TypeError /\
               ends_with t [cfg_prompt (Value None); unexpected e] /\
               remote_calls t = []))).
  unfold cli, size_prompt, steps_prompt, cfg_prompt, unexpected. explore.
  all: split; [| split].
  all: intros Hin; in_cases Hin.
  all: inversion Hin; subst.
  all: try discriminate.
  all: repeat match goal with
         | H : split_x None = _ |- _ => cbn in H; inversion H; subst; clear H
         | H : py_int _ None = _ |- _ => cbn in H; inversion H; subst; clear H
         | H : py_float _ None = _ |- _ => cbn in H; inversion H; subst; clear H
         end.
  all: try discriminate.
  all: eexists; (split; [| split; [ends | reflexivity]]); reflexivity.
Qed.

(** X9.  A size [a ++ "x" ++ b], with no other "x" in it and [a] and [b]
    accepted by [int], passes the validation: the scheduler is asked for
    right after it, and every submitted request carries these width and
    height. *)
Theorem well_formed_size_is_accepted :
  forall CIVITAI_MODELS CIVITAI_VERSIONS requested_model lora_list t r
         a b width height,
    runs (cli CIVITAI_MODELS CIVITAI_VERSIONS requested_model lora_list) t r ->
    In (size_prompt (Value (Some (a ++ String "x" b)%string))) t ->
    occurs "x" a = false -> occurs "x" b = false ->
    int_of_str a = Some width -> int_of_str b = Some height ->
    (exists answer,
       followed_by t (size_prompt (Value (Some (a ++ String "x" b)%string)))
                   (Called (SelectAsk "Select scheduler:" scheduler_choices) answer)) /\
    (forall input_data,
       In input_data (submitted t) ->
       exists params,
         py_getitem input_data (PStr "params") = Value params /\
         py_getitem params (PStr "width") = Value (PInt width) /\
         py_getitem params (PStr "height") = Value (PInt height)).
Proof.
  intros M V id loras t r a b width height Hruns.
  revert a b width height. revert t r Hruns.
  change (always (cli M V id loras) (fun t r =>
    forall a b width height,
    In (size_prompt (Value (Some (a ++ String "x" b)%string))) t ->
    occurs "x" a = false -> occurs "x" b = false ->
    int_of_str a = Some width -> int_of_str b = Some height ->
    (exists answer,
       followed_by t (size_prompt (Value (Some (a ++ String "x" b)%string)))
                   (Called (SelectAsk "Select scheduler:" scheduler_choices) answer)) /\
    (forall input_data,
       In input_data (submitted t) ->
       exists params,
         py_getitem input_data (PStr "params") = Value params /\
         py_getitem params (PStr "width") = Value (PInt width) /\
         py_getitem params (PStr "height") = Value (PInt height)))).
  unfold cli, size_prompt, invalid_size. explore.
  all: intros sa sb width height Hin Ha Hb Hwa Hhb; in_cases Hin.
  all: inversion Hin; subst; clear Hin.
  all: repeat match goal with
         | H : split_x (Some _) = _ |- _ =>
             cbn in H; rewrite (split_on_joined _ _ _ Ha Hb) in H;
             inversion H; subst; clear H
         | H : unpack_two_ints _ [_; _] = _ |- _ =>
             cbn in H; rewrite Hwa, Hhb in H; inversion H; subst; clear H
         end.
  all: split; [eexists; follows|].
  all: intros input_data Hsub.
  all: apply submitted_In in Hsub as (o & Hsub); in_cases Hsub.
  all: assert (Hs : In input_data (submitted tg)) by (apply submitted_In; eauto).
  all: destruct (run_submitted _ _ _ _ _ _ _ _ _ _ _ _ _ _ Hg Hs) as (nets & -> & _).
  all: destruct loras; cbn; eexists; split; reflexivity || (split; reflexivity).
Qed.

(** X10.  The negative prompt and the scheduler are not validated: every
    submitted request carries the negative prompt as it was entered ([None]
    when it was cancelled) and the scheduler as it was selected. *)
Theorem optional_answers_pass_through :
  forall CIVITAI_MODELS CIVITAI_VERSIONS requested_model lora_list t r
         neg_prompt scheduler input_data,
    runs (cli CIVITAI_MODELS CIVITAI_VERSIONS requested_model lora_list) t r ->
    In (Asked "Enter negative prompt (optional):" None (Value neg_prompt)) t ->
    In (Called (SelectAsk "Select scheduler:" scheduler_choices) (Value scheduler)) t ->
    In input_data (submitted t) ->
    exists params,
      py_getitem input_data (PStr "params") = Value params /\
      py_getitem params (PStr "negativePrompt") = Value (answer_value neg_prompt) /\
      py_getitem params (PStr "scheduler") = Value scheduler.
Proof.
  intros M V id loras t r neg sch input_data Hruns.
  revert neg sch input_data. revert t r Hruns.
  change (always (cli M V id loras) (fun t r =>
    forall neg sch input_data,
    In (Asked "Enter negative prompt (optional):" None (Value neg)) t ->
    In (Called (SelectAsk "Select scheduler:" scheduler_choices) (Value sch)) t ->
    In input_data (submitted t) ->
    exists params,
      py_getitem input_data (PStr "params") = Value params /\
      py_getitem params (PStr "negativePrompt") = Value (answer_value neg) /\
      py_getitem params (PStr "scheduler") = Value sch)).
  unfold cli. explore.
  all: intros neg sch input_data Hneg Hsch Hsub.
  all: apply submitted_In in Hsub as (o & Hsub); in_cases Hsub.
  all: in_cases Hneg; inversion Hneg; subst; clear Hneg.
  all: in_cases Hsch; inversion Hsch; subst; clear Hsch.
  all: assert (Hs : In input_data (submitted tg)) by (apply submitted_In; eauto).
  all: destruct (run_submitted _ _ _ _ _ _ _ _ _ _ _ _ _ _ Hg Hs) as (nets & -> & _).
  all: destruct loras; cbn; eexists; (split; [reflexivity|]); split; reflexivity.
Qed.

End CollectorPaths.

Lemma cli_returns_none_witness :
  snd (exec example_cli good_session) = Value PNone.
Proof.
  exact (cli_returns_none _ _ _ _ _ _ _ _ (example_cli_runs good_session)).
Defined.

Lemma no_model_found_witness :
  trace_of example_cli nothing_found_session
  = [ Called (GetModelDetails models_url versions_url (PInt 101)) (Value PNone);
      Called (ProcessModelData PNone) (Value PNone);
      Said (Feedback [Lit "No model found with ID: "; Fmt (PInt 101)] "error") ].
Proof.
  refine (no_model_found _ _ _ _ _ _ _ _ PNone PNone
            (example_cli_runs nothing_found_session) _ eq_refl).
  vm_compute. find_in.
Defined.

Lemma model_without_versions_witness :
  exists e,
    class_of e = IndexError /\
    trace_of example_cli versionless_session
    = [ Called (GetModelDetails models_url versions_url (PInt 101))
               (Value versionless_record);
        Called (ProcessModelData versionless_record) (Value versionless_record);
        unexpected e ].
Proof.
  refine (model_without_versions _ _ _ _ _ _ _ _ versionless_record
            versionless_record (example_cli_runs versionless_session)
            _ eq_refl eq_refl).
  vm_compute. find_in.
Defined.

Lemma raw_model_fallback_witness :
  let t := trace_of example_cli fallback_session in
  (exists answer rest,
     t = Called (GetModelDetails models_url versions_url (PInt 101))
                (Value checkpoint_record) ::
         Called (ProcessModelData checkpoint_record) (Value versionless_record) ::
         positive_prompt answer :: rest) /\
  (forall message choices answer,
     In (Called (SelectAsk message choices) answer) t ->
     message = "Select scheduler:") /\
  submitted t = [good_request] /\
  py_getitem first_version (PStr "air") = Value checkpoint_air /\
  py_getitem good_request (PStr "model") = Value checkpoint_air.
Proof.
  assert (Hin : In (Called (ProcessModelData checkpoint_record)
                           (Value versionless_record))
                   (trace_of example_cli fallback_session))
    by (vm_compute; find_in).
  destruct (raw_model_fallback _ _ _ _ _ _ _ _ checkpoint_record
              versionless_record (PList []) first_version
              (example_cli_runs fallback_session) Hin eq_refl eq_refl eq_refl)
    as (Hsel & _ & _ & Hair).
  destruct (Hair checkpoint_air eq_refl) as [Hprompt Hmodel].
  split; [exact Hprompt|]. split; [exact Hsel|].
  split; [vm_compute; reflexivity|].
  split; [reflexivity|].
  apply Hmodel. vm_compute. left. reflexivity.
Defined.

Lemma version_selection_witness :
  let t := trace_of example_cli cancelled_version_session in
  (forall e, version_choices [first_version; second_version] = Raises e ->
     t = [ Called (GetModelDetails models_url versions_url (PInt 101))
                  (Value two_versions_record);
           Called (ProcessModelData two_versions_record) (Value two_versions_record);
           unexpected e ]) /\
  (forall choices, version_choices [first_version; second_version] = Value choices ->
     Forall2 offered [first_version; second_version] choices /\
     exists answer rest,
       t = Called (GetModelDetails models_url versions_url (PInt 101))
                  (Value two_versions_record) ::
           Called (ProcessModelData two_versions_record) (Value two_versions_record) ::
           Called (SelectAsk "Select a version" choices) answer :: rest /\
       (forall selected,
          answer = Value selected -> truthy selected = false ->
          rest = [Said (Feedback [Lit "No version selected. Aborting."] "error")]) /\
       (forall selected input_data,
          answer = Value selected -> In input_data (submitted t) ->
          exists air,
            py_getitem selected (PStr "air") = Value air /\
            py_getitem input_data (PStr "model") = Value air)).
Proof.
  refine (version_selection _ _ _ _ _ _ _ _ two_versions_record
            two_versions_record [first_version; second_version]
            (example_cli_runs cancelled_version_session) _ eq_refl (le_n 2)).
  vm_compute. find_in.
Defined.

(** The cancelled selection, evaluated. *)
Example cancelled_version_run :
  exec example_cli cancelled_version_session
  = ([ Called (GetModelDetails models_url versions_url (PInt 101))
              (Value two_versions_record);
       Called (ProcessModelData two_versions_record) (Value two_versions_record);
       Called (SelectAsk "Select a version"
                 [ Choice [Fmt (PInt 202); Lit " - "; Fmt (PStr "v1.0")] first_version;
                   Choice [Fmt (PInt 203); Lit " - "; Fmt (PStr "v2.0")] second_version ])
              (Value PNone);
       Said (Feedback [Lit "No version selected. Aborting."] "error") ],
     Value PNone).
Proof. vm_compute. reflexivity. Qed.

Lemma non_numeric_steps_abort_witness :
  let t := trace_of example_cli bad_steps_session in
  ends_with t [steps_prompt (Value (Some "twenty")); invalid_steps] /\
  remote_calls t = [].
Proof.
  refine (non_numeric_steps_abort _ _ _ _ _ _ _ _ "twenty"
            (example_cli_runs bad_steps_session) _ eq_refl).
  vm_compute. find_in.
Defined.

Lemma non_numeric_cfg_abort_witness :
  let t := trace_of example_cli bad_cfg_session in
  ends_with t [cfg_prompt (Value (Some "high")); invalid_cfg] /\
  remote_calls t = [].
Proof.
  refine (non_numeric_cfg_abort _ _ _ _ _ _ _ _ "high"
            (example_cli_runs bad_cfg_session) _ eq_refl).
  vm_compute. find_in.
Defined.

Lemma cancelled_answers_are_unexpected_witness :
  let t := trace_of example_cli cancelled_size_session in
  (In (size_prompt (Value None)) t ->
   exists e, class_of e = AttributeError /\
             ends_with t [size_prompt (Value None); unexpected e] /\
             remote_calls t = []) /\
  (In (steps_prompt (Value None)) t ->
   exists e, class_of e = TypeError /\
             ends_with t [steps_prompt (Value None); unexpected e] /\
             remote_calls t = []) /\
  (In (cfg_prompt (Value None)) t ->
   exists e, class_of e = TypeError /\
             ends_with t [cfg_prompt (Value None); unexpected e] /\
             remote_calls t = []).
Proof.
  exact (cancelled_answers_are_unexpected _ _ _ _ _ _ _ _
           (example_cli_runs cancelled_size_session)).
Defined.

(** The cancelled size, evaluated. *)
Example cancelled_size_run :
  exec example_cli cancelled_size_session
  = ([ Called (GetModelDetails models_url versions_url (PInt 101))
              (Value checkpoint_record);
       Called (ProcessModelData checkpoint_record) (Value checkpoint_record);
       positive_prompt (Value (Some "a cat"));
       Asked "Enter negative prompt (optional):" None (Value (Some ""));
       size_prompt (Value None);
       unexpected (Exn AttributeError "split") ],
     Value PNone).
Proof. vm_compute. reflexivity. Qed.

Lemma well_formed_size_is_accepted_witness :
  let t := trace_of example_cli good_session in
  (exists answer,
     followed_by t (size_prompt (Value (Some ("1024" ++ String "x" "1024")%string)))
                 (Called (SelectAsk "Select scheduler:" scheduler_choices) answer)) /\
  (forall input_data,
     In input_data (submitted t) ->
     exists params,
       py_getitem input_data (PStr "params") = Value params /\
       py_getitem params (PStr "width") = Value (PInt 1024) /\
       py_getitem params (PStr "height") = Value (PInt 1024)).
Proof.
  refine (well_formed_size_is_accepted _ _ _ _ _ _ _ _ "1024" "1024" 1024 1024
            (example_cli_runs good_session) _ eq_refl eq_refl eq_refl eq_refl).
  vm_compute. find_in.
Defined.

Lemma optional_answers_pass_through_witness :
  exists params,
    py_getitem good_request (PStr "params") = Value params /\
    py_getitem params (PStr "negativePrompt") = Value (answer_value (Some "")) /\
    py_getitem params (PStr "scheduler") = Value (PStr "EulerA").
Proof.
  refine (optional_answers_pass_through _ _ _ _ _ _ _ _ (Some "") (PStr "EulerA")
            good_request (example_cli_runs good_session) _ _ _).
  - vm_compute. find_in.
  - vm_compute. find_in.
  - vm_compute. find_in.
Defined.
